(** * snakemake-monitoring-plugin-wms: the monitoring provider, verified

    A shallow embedding of [snakemake_monitoring_plugin_wms/__init__.py]:
    the Python values the provider handles, the primitives of the language
    and of its [json] module the provider calls, the provider's methods over
    an explicit process state, and the properties of the methods. *)

From Stdlib Require Import ZArith Ascii String List Decimal DecimalFacts DecimalPos Lia.
From stdpp Require Import base option list strings gmap fin_maps.

Local Open Scope Z_scope.
Local Open Scope string_scope.
Local Open Scope list_scope.

(** ** Python values

    A Python [str] is modelled as a Rocq [string]: a sequence of code points
    below 256.  Floats and [bytes] are not part of the model.  A dictionary
    is an association list in insertion order whose keys are strings.  An
    [int] is modelled by its value, a list, a tuple and a dictionary by
    their items.  The interpreter converts an [int] to text only up to a
    number of digits, and follows nested values only up to its recursion
    limit: the primitives that walk a value ([str], [repr], a format field,
    [json.dumps], [json.loads]) are modelled on the values within these
    limits (see [within_limits]). *)

(** An object of a user class, given by what the provider can observe of
    it: the name of its class, [str()], [repr()], its truth value and, for
    a path-like object (one with [__fspath__], such as a [pathlib.Path]),
    the text that [os.fspath] gives for it; [obj_fspath] is [None] for an
    object without [__fspath__].  A path-like object that gives its path in
    [bytes] is not part of the model. *)
Record pyobj := PyObject {
  obj_class : string;
  obj_str : string;
  obj_repr : string;
  obj_truthy : bool;
  obj_fspath : option string;
}.

Unset Elimination Schemes.
Inductive pyval :=
| PyNone
| PyBool (b : bool)
| PyInt (z : Z)
| PyStr (s : string)
| PyList (l : list pyval)
| PyTuple (l : list pyval)
| PyDict (d : list (string * pyval))
| PyExc (cls : string) (args : list pyval)
    (* an instance of an exception class that keeps [BaseException]'s
       [__str__], [__repr__] and truth value *)
| PyObj (o : pyobj).
Set Elimination Schemes.

Abbreviation pydict := (list (string * pyval)).

Section pyval_ind.
Variable P : pyval → Prop.
Hypothesis HNone : P PyNone.
Hypothesis HBool : ∀ b, P (PyBool b).
Hypothesis HInt : ∀ z, P (PyInt z).
Hypothesis HStr : ∀ s, P (PyStr s).
Hypothesis HList : ∀ l, Forall P l → P (PyList l).
Hypothesis HTuple : ∀ l, Forall P l → P (PyTuple l).
Hypothesis HDict : ∀ d, Forall (λ kv, P kv.2) d → P (PyDict d).
Hypothesis HExc : ∀ cls args, Forall P args → P (PyExc cls args).
Hypothesis HObj : ∀ o, P (PyObj o).

Fixpoint pyval_ind (v : pyval) : P v :=
  let fix all (l : list pyval) : Forall P l :=
    match l with
    | [] => ListDef.Forall_nil _
    | x :: l' => ListDef.Forall_cons _ x l' (pyval_ind x) (all l')
    end in
  match v with
  | PyNone => HNone
  | PyBool b => HBool b
  | PyInt z => HInt z
  | PyStr s => HStr s
  | PyList l => HList l (all l)
  | PyTuple l => HTuple l (all l)
  | PyDict d =>
      HDict d ((fix alld (d : pydict) : Forall (λ kv, P kv.2) d :=
                  match d with
                  | [] => ListDef.Forall_nil _
                  | kv :: d' =>
                      ListDef.Forall_cons _ kv d' (pyval_ind kv.2) (alld d')
                  end) d)
  | PyExc cls args => HExc cls args (all args)
  | PyObj o => HObj o
  end.
End pyval_ind.

(** ** Text primitives *)

(** The double quote character. *)
Definition dquote : ascii := "034"%char.

(** [qq s] is [s] with each apostrophe turned into a double quote; the
    examples write JSON text with it. *)
Fixpoint qq (s : string) : string :=
  match s with
  | "" => ""
  | String c s' => String (if Ascii.eqb c "'" then dquote else c) (qq s')
  end.

Fixpoint uint_digits (d : uint) : string :=
  match d with
  | Nil => ""
  | D0 d => String "0" (uint_digits d)
  | D1 d => String "1" (uint_digits d)
  | D2 d => String "2" (uint_digits d)
  | D3 d => String "3" (uint_digits d)
  | D4 d => String "4" (uint_digits d)
  | D5 d => String "5" (uint_digits d)
  | D6 d => String "6" (uint_digits d)
  | D7 d => String "7" (uint_digits d)
  | D8 d => String "8" (uint_digits d)
  | D9 d => String "9" (uint_digits d)
  end.

(** [str(z)] for an [int]: decimal digits, a minus sign when negative. *)
Definition int_str (z : Z) : string :=
  match z with
  | Z0 => "0"
  | Zpos p => uint_digits (Pos.to_uint p)
  | Zneg p => String "-" (uint_digits (Pos.to_uint p))
  end.

(** [sys.get_int_max_str_digits()], as the interpreter starts with it: on
    an [int] of more digits [str], [repr] and [json.dumps] raise
    [ValueError] instead of giving [int_str]. *)
Definition int_max_str_digits : nat := 4300.

(** The interpreter converts [z] to text: it has no more digits than the
    limit. *)
Definition int_within_limit (z : Z) : bool :=
  (String.length (int_str (Z.abs z)) <=? int_max_str_digits)%nat.

Definition hex_digit (n : N) : ascii :=
  if (n <? 10)%N then ascii_of_N (48 + n) else ascii_of_N (87 + n).

(** The two lower-case hexadecimal digits of a code point below 256. *)
Definition hex2 (c : ascii) : string :=
  let n := N_of_ascii c in
  String (hex_digit (n / 16)) (String (hex_digit (n mod 16)) "").

Fixpoint contains_char (c : ascii) (s : string) : bool :=
  match s with
  | "" => false
  | String x s' => if Ascii.eqb x c then true else contains_char c s'
  end.

(** [sub in s]. *)
Fixpoint substring_of (sub s : string) : bool :=
  if String.prefix sub s then true
  else match s with
       | "" => false
       | String _ s' => substring_of sub s'
       end.

(** [str.isprintable] on one code point below 256. *)
Definition printable (c : ascii) : bool :=
  let n := N_of_ascii c in
  ((32 <=? n) && (n <? 127) || (161 <=? n) && negb (n =? 173))%N.

Definition repr_char (quote c : ascii) : string :=
  if Ascii.eqb c quote || Ascii.eqb c "\" then String "\" (String c "")
  else if Ascii.eqb c "009" then "\t"
  else if Ascii.eqb c "010" then "\n"
  else if Ascii.eqb c "013" then "\r"
  else if printable c then String c ""
  else "\x" +:+ hex2 c.

Fixpoint repr_chars (quote : ascii) (s : string) : string :=
  match s with
  | "" => ""
  | String c s' => repr_char quote c +:+ repr_chars quote s'
  end.

(** [repr(s)] for a [str]: single quotes, unless the text has a single
    quote and no double quote. *)
Definition str_repr (s : string) : string :=
  let quote : ascii :=
    if contains_char "'" s && negb (contains_char dquote s) then dquote
    else "'"%char in
  String quote (repr_chars quote s) +:+ String quote "".

(** [sep.join(l)]. *)
Definition join (sep : string) (l : list string) : string :=
  String.concat sep l.
Global Arguments join : simpl never.

(** ** Builtins on values *)

Fixpoint py_repr (v : pyval) : string :=
  match v with
  | PyNone => "None"
  | PyBool true => "True"
  | PyBool false => "False"
  | PyInt z => int_str z
  | PyStr s => str_repr s
  | PyList l => "[" +:+ join ", " (map py_repr l) +:+ "]"
  | PyTuple [x] => "(" +:+ py_repr x +:+ ",)"
  | PyTuple l => "(" +:+ join ", " (map py_repr l) +:+ ")"
  | PyDict d =>
      "{" +:+ join ", " (map (λ kv, str_repr kv.1 +:+ ": " +:+ py_repr kv.2) d)
          +:+ "}"
  | PyExc cls args => cls +:+ "(" +:+ join ", " (map py_repr args) +:+ ")"
  | PyObj o => obj_repr o
  end.

(** [str(v)]; also what an empty format field and an f-string produce. *)
Fixpoint py_str (v : pyval) : string :=
  match v with
  | PyStr s => s
  | PyExc _ [] => ""
  | PyExc _ [a] => py_str a
  | PyExc _ args => py_repr (PyTuple args)
  | PyObj o => obj_str o
  | _ => py_repr v
  end.

(** [bool(v)]: the truth value tested by [if], [not] and [or]. *)
Definition py_bool (v : pyval) : bool :=
  match v with
  | PyNone => false
  | PyBool b => b
  | PyInt z => negb (Z.eqb z 0)
  | PyStr s => negb (String.eqb s "")
  | PyList l | PyTuple l => match l with [] => false | _ => true end
  | PyDict d => match d with [] => false | _ => true end
  | PyExc _ _ => true
  | PyObj o => obj_truthy o
  end.

(** [v.__class__.__name__]. *)
Definition class_name (v : pyval) : string :=
  match v with
  | PyNone => "NoneType"
  | PyBool _ => "bool"
  | PyInt _ => "int"
  | PyStr _ => "str"
  | PyList _ => "list"
  | PyTuple _ => "tuple"
  | PyDict _ => "dict"
  | PyExc cls _ => cls
  | PyObj o => obj_class o
  end.

(** [a or b]. *)
Definition py_or (a b : pyval) : pyval :=
  if py_bool a then a else b.

(** Every [int] that occurs in [v] is within the limit of the conversion
    to text: [str(v)], [repr(v)] and [json.dumps(v)] raise no [ValueError]
    on it. *)
Fixpoint within_int_limit (v : pyval) : bool :=
  match v with
  | PyInt z => int_within_limit z
  | PyList l | PyTuple l | PyExc _ l => forallb within_int_limit l
  | PyDict d => forallb (λ kv, within_int_limit kv.2) d
  | _ => true
  end.

(** The levels of lists, tuples, dictionaries and exceptions nested in
    [v]. *)
Fixpoint depth (v : pyval) : nat :=
  match v with
  | PyList l | PyTuple l | PyExc _ l => S (list_max (map depth l))
  | PyDict d => S (list_max (map (λ kv, depth kv.2) d))
  | _ => 0%nat
  end.

(** A depth of nesting that the interpreter follows: [str], [repr] and the
    [json] module take one level of recursion for each level of nesting and
    raise [RecursionError] at [sys.getrecursionlimit()], which is 1000
    unless the process is configured otherwise. *)
Definition nesting_limit : nat := 100.

(** The value [v] is within the limits of the interpreter: [py_str],
    [py_repr], [json_dumps] and [json_loads] are those of the interpreter
    on it. *)
Definition within_limits (v : pyval) : bool :=
  within_int_limit v && (depth v <=? nesting_limit)%nat.

(** [os.fspath(v)]: the text of a [str] and of a path-like object; [None]
    stands for the [TypeError] raised on any other value. *)
Definition os_fspath (v : pyval) : option string :=
  match v with
  | PyStr s => Some s
  | PyObj o => obj_fspath o
  | _ => None
  end.

(** ** The [json] module: [json.dumps]

    The encoder with its default settings: [ensure_ascii], the separators
    [", "] and [": "], no indentation. *)

(** The four hexadecimal digits of a code point below 256. *)
Definition hex4 (c : ascii) : string := "00" +:+ hex2 c.

(** One character inside a JSON string literal. *)
Definition json_escape_char (c : ascii) : string :=
  if Ascii.eqb c dquote then String "\" (String dquote "")
  else if Ascii.eqb c "\" then "\\"
  else if Ascii.eqb c "010" then "\n"
  else if Ascii.eqb c "013" then "\r"
  else if Ascii.eqb c "009" then "\t"
  else if Ascii.eqb c "008" then "\b"
  else if Ascii.eqb c "012" then "\f"
  else if (32 <=? N_of_ascii c)%N && (N_of_ascii c <=? 126)%N then String c ""
  else "\u" +:+ hex4 c.

Fixpoint json_escape (s : string) : string :=
  match s with
  | "" => ""
  | String c s' => json_escape_char c +:+ json_escape s'
  end.

Definition json_string (s : string) : string :=
  String dquote (json_escape s +:+ String dquote "").

(** [json.dumps(v)] for a value [v] within the limits of the interpreter
    ([within_limits]); [None] stands for the [TypeError] raised on a value
    that is not JSON serializable. *)
Fixpoint json_dumps (v : pyval) : option string :=
  match v with
  | PyNone => Some "null"
  | PyBool true => Some "true"
  | PyBool false => Some "false"
  | PyInt z => Some (int_str z)
  | PyStr s => Some (json_string s)
  | PyList l | PyTuple l =>
      items ← mapM json_dumps l;
      Some ("[" +:+ join ", " items +:+ "]")
  | PyDict d =>
      members ← mapM (λ kv, t ← json_dumps kv.2;
                            Some (json_string kv.1 +:+ ": " +:+ t)) d;
      Some ("{" +:+ join ", " members +:+ "}")
  | PyExc _ _ | PyObj _ => None
  end.

(** ** The process: requests, exceptions, state *)

Inductive http_method := GET | PUT | POST.

Record request := Request {
  req_method : http_method;
  req_url : string;
  req_headers : option (list (string * string));
  req_params : option pyval;
  req_data : option pyval;
}.

(** A response of the [requests] library, as far as the provider reads it:
    [status_code], and what [json()] returns ([None] when it raises). *)
Record response := Response {
  status_code : Z;
  response_json : option pyval;
}.

Inductive pyexn :=
| KeyError (key : string)
| TypeError
| AttributeError
| IndexError
| JSONDecodeError
| RequestException
| DanglingReference. (* no Python exception: a reference to no object *)

(** How a call ends: it returns, an exception leaves it, or [sys.exit]
    ends the process. *)
Inductive outcome (A : Type) :=
| Returned (a : A)
| Raised (e : pyexn)
| Exited (code : Z).
Arguments Returned {A} a.
Arguments Raised {A} e.
Arguments Exited {A} code.

(** The status the operating system sees of [sys.exit(code)]. *)
Definition exit_status (code : Z) : Z := Z.land code 255.

(** What the provider takes from outside the process. *)
Record environment := Environment {
  os_getenv : string → option string;
  os_getcwd : string;
  os_path_abspath : string → string;
  os_linesep : string;
  time_asctime : list request → string;
    (* the clock, read after the given requests *)
  http : list request → request → option response;
    (* the server's answer after the given requests; [None]: the transport
       raises *)
  settings_host : pyval;
}.

Abbreviation loc := positive.

Record state := State {
  (* attributes of [self] *)
  token : option string;
  address : pyval;
  args : pyval;
  metadata : pydict;
  server : option pydict;
  (* the process *)
  heap : gmap loc pydict;
  stderr : string;
  sent : list request;
}.

Definition set_token (x : option string) (σ : state) : state :=
  State x (address σ) (args σ) (metadata σ) (server σ) (heap σ) (stderr σ) (sent σ).
Definition set_address (x : pyval) (σ : state) : state :=
  State (token σ) x (args σ) (metadata σ) (server σ) (heap σ) (stderr σ) (sent σ).
Definition set_args (x : pyval) (σ : state) : state :=
  State (token σ) (address σ) x (metadata σ) (server σ) (heap σ) (stderr σ) (sent σ).
Definition set_metadata (x : pydict) (σ : state) : state :=
  State (token σ) (address σ) (args σ) x (server σ) (heap σ) (stderr σ) (sent σ).
Definition set_server (x : option pydict) (σ : state) : state :=
  State (token σ) (address σ) (args σ) (metadata σ) x (heap σ) (stderr σ) (sent σ).
Definition set_heap (x : gmap loc pydict) (σ : state) : state :=
  State (token σ) (address σ) (args σ) (metadata σ) (server σ) x (stderr σ) (sent σ).
Definition set_stderr (x : string) (σ : state) : state :=
  State (token σ) (address σ) (args σ) (metadata σ) (server σ) (heap σ) x (sent σ).
Definition set_sent (x : list request) (σ : state) : state :=
  State (token σ) (address σ) (args σ) (metadata σ) (server σ) (heap σ) (stderr σ) x.

(** Computations over the state that return, raise or exit. *)
Definition M (A : Type) : Type := state → outcome A * state.

Definition ret {A} (a : A) : M A := λ σ, (Returned a, σ).
Definition bind {A B} (m : M A) (k : A → M B) : M B := λ σ,
  match m σ with
  | (Returned a, σ') => k a σ'
  | (Raised e, σ') => (Raised e, σ')
  | (Exited c, σ') => (Exited c, σ')
  end.
Definition raise {A} (e : pyexn) : M A := λ σ, (Raised e, σ).
Definition get {A} (f : state → A) : M A := λ σ, (Returned (f σ), σ).
Definition modify (f : state → state) : M unit := λ σ, (Returned tt, f σ).

Declare Scope py_scope.
Delimit Scope py_scope with py.
Notation "x <- m ;; k" := (bind m (λ x, k))
  (at level 100, m at next level, right associativity) : py_scope.
Notation "m ;;; k" := (bind m (λ _, k))
  (at level 100, right associativity) : py_scope.
Local Open Scope py_scope.

(** [sys.stderr.write(s)] and [sys.exit(code)]. *)
Definition sys_stderr_write (s : string) : M unit :=
  modify (λ σ, set_stderr (stderr σ +:+ s) σ).
Definition sys_exit {A} (code : Z) : M A := λ σ, (Exited code, σ).

(** ** Dictionaries *)

Fixpoint dict_get (d : pydict) (key : string) : option pyval :=
  match d with
  | [] => None
  | (k, v) :: d' => if String.eqb k key then Some v else dict_get d' key
  end.

(** [d[key] = v] on the value of a dictionary: an existing key keeps its
    place, a new one goes last. *)
Fixpoint dict_set {V} (d : list (string * V)) (key : string) (v : V)
  : list (string * V) :=
  match d with
  | [] => [(key, v)]
  | (k, x) :: d' =>
      if String.eqb k key then (k, v) :: d' else (k, x) :: dict_set d' key v
  end.

(** [{**a, **b}]. *)
Definition dict_merge {V} (a b : list (string * V)) : list (string * V) :=
  foldl (λ acc kv, dict_set acc kv.1 kv.2) a b.

(** ** The [json] module: [json.loads]

    The decoder, on texts whose values are in the model: [None] stands for
    the [JSONDecodeError] of a malformed text, and also for a text with a
    float or with a code point above 255. *)

Definition is_ws (c : ascii) : bool :=
  Ascii.eqb c " " || Ascii.eqb c "009" || Ascii.eqb c "010" || Ascii.eqb c "013".

Fixpoint skip_ws (s : string) : string :=
  match s with
  | "" => ""
  | String c s' => if is_ws c then skip_ws s' else s
  end.

Definition digit_of (c : ascii) : option (uint → uint) :=
  if Ascii.eqb c "0" then Some D0
  else if Ascii.eqb c "1" then Some D1
  else if Ascii.eqb c "2" then Some D2
  else if Ascii.eqb c "3" then Some D3
  else if Ascii.eqb c "4" then Some D4
  else if Ascii.eqb c "5" then Some D5
  else if Ascii.eqb c "6" then Some D6
  else if Ascii.eqb c "7" then Some D7
  else if Ascii.eqb c "8" then Some D8
  else if Ascii.eqb c "9" then Some D9
  else None.

(** The longest run of decimal digits at the head of [s]. *)
Fixpoint scan_digits (s : string) : uint * string :=
  match s with
  | "" => (Nil, "")
  | String c s' =>
      match digit_of c with
      | Some d => let '(u, rest) := scan_digits s' in (d u, rest)
      | None => (Nil, s)
      end
  end.

(** A fraction or an exponent follows: the number is a float. *)
Definition starts_float (s : string) : bool :=
  match s with
  | "" => false
  | String c _ => Ascii.eqb c "." || Ascii.eqb c "e" || Ascii.eqb c "E"
  end.

(** An integer: an optional minus sign, then [0] or digits that do not
    start with [0]. *)
Definition scan_number (s : string) : option (Z * string) :=
  let '(sign, s1) :=
    match s with
    | String c s' => if Ascii.eqb c "-" then (-1, s') else (1, s)
    | "" => (1, s)
    end in
  let '(u, rest) := scan_digits s1 in
  match u with
  | Nil => None
  | D0 (D0 _ | D1 _ | D2 _ | D3 _ | D4 _ | D5 _ | D6 _ | D7 _ | D8 _ | D9 _) => None
  | _ => if starts_float rest then None else Some (sign * Z.of_uint u, rest)
  end.

Definition hex_value (c : ascii) : option N :=
  let n := N_of_ascii c in
  if (48 <=? n)%N && (n <=? 57)%N then Some (n - 48)%N
  else if (97 <=? n)%N && (n <=? 102)%N then Some (n - 87)%N
  else if (65 <=? n)%N && (n <=? 70)%N then Some (n - 55)%N
  else None.

(** The character a backslash and [e] stand for. *)
Definition unescape (e : ascii) : option ascii :=
  if Ascii.eqb e dquote then Some dquote
  else if Ascii.eqb e "\" then Some "\"%char
  else if Ascii.eqb e "/" then Some "/"%char
  else if Ascii.eqb e "b" then Some "008"%char
  else if Ascii.eqb e "f" then Some "012"%char
  else if Ascii.eqb e "n" then Some "010"%char
  else if Ascii.eqb e "r" then Some "013"%char
  else if Ascii.eqb e "t" then Some "009"%char
  else None.

(** The code point of four hexadecimal digits, when it is below 256. *)
Definition code_point (h1 h2 h3 h4 : ascii) : option ascii :=
  a ← hex_value h1; b ← hex_value h2; c ← hex_value h3; d ← hex_value h4;
  let n := (((a * 16 + b) * 16 + c) * 16 + d)%N in
  if (n <? 256)%N then Some (ascii_of_N n) else None.

(** A string literal after its opening quote: the text up to the closing
    quote, decoded, and what follows the closing quote. *)
Fixpoint scan_string (s : string) : option (string * string) :=
  match s with
  | "" => None
  | String c s' =>
      if Ascii.eqb c dquote then Some ("", s')
      else if Ascii.eqb c "\" then
        match s' with
        | "" => None
        | String e s'' =>
            if Ascii.eqb e "u" then
              match s'' with
              | String h1 (String h2 (String h3 (String h4 s3))) =>
                  x ← code_point h1 h2 h3 h4;
                  '(str, rest) ← scan_string s3;
                  Some (String x str, rest)
              | _ => None
              end
            else
              x ← unescape e;
              '(str, rest) ← scan_string s'';
              Some (String x str, rest)
        end
      else if (N_of_ascii c <? 32)%N then None
      else '(str, rest) ← scan_string s'; Some (String c str, rest)
  end.

(** [s] without its prefix [p]. *)
Fixpoint strip_prefix (p s : string) : option string :=
  match p, s with
  | "", _ => Some s
  | String a p', String b s' => if Ascii.eqb a b then strip_prefix p' s' else None
  | _, _ => None
  end.

(** [dict(pairs)]: a later pair with the same key replaces the value. *)
Definition dict_of_pairs (pairs : pydict) : pydict := dict_merge [] pairs.

(** One value at the head of [s], and what follows it; [n] bounds the
    number of nested calls. *)
Fixpoint parse_value (n : nat) (s : string) : option (pyval * string) :=
  match n with
  | O => None
  | S n =>
      match s with
      | "" => None
      | String c s' =>
          if Ascii.eqb c dquote then
            '(str, rest) ← scan_string s'; Some (PyStr str, rest)
          else if Ascii.eqb c "{" then
            match skip_ws s' with
            | "" => None
            | String c' s'' =>
                if Ascii.eqb c' "}" then Some (PyDict [], s'')
                else
                  '(pairs, rest) ← parse_members n (String c' s'');
                  Some (PyDict (dict_of_pairs pairs), rest)
            end
          else if Ascii.eqb c "[" then
            match skip_ws s' with
            | "" => None
            | String c' s'' =>
                if Ascii.eqb c' "]" then Some (PyList [], s'')
                else
                  '(items, rest) ← parse_elements n (String c' s'');
                  Some (PyList items, rest)
            end
          else
            match strip_prefix "null" s, strip_prefix "true" s,
                  strip_prefix "false" s with
            | Some rest, _, _ => Some (PyNone, rest)
            | _, Some rest, _ => Some (PyBool true, rest)
            | _, _, Some rest => Some (PyBool false, rest)
            | _, _, _ => '(z, rest) ← scan_number s; Some (PyInt z, rest)
            end
      end
  end
with parse_elements (n : nat) (s : string) : option (list pyval * string) :=
  match n with
  | O => None
  | S n =>
      '(v, s1) ← parse_value n s;
      match skip_ws s1 with
      | "" => None
      | String c s2 =>
          if Ascii.eqb c "," then
            '(vs, s3) ← parse_elements n (skip_ws s2); Some (v :: vs, s3)
          else if Ascii.eqb c "]" then Some ([v], s2)
          else None
      end
  end
with parse_members (n : nat) (s : string) : option (pydict * string) :=
  match n with
  | O => None
  | S n =>
      match s with
      | "" => None
      | String c s0 =>
          if Ascii.eqb c dquote then
            '(key, s1) ← scan_string s0;
            match skip_ws s1 with
            | "" => None
            | String c1 s2 =>
                if Ascii.eqb c1 ":" then
                  '(v, s3) ← parse_value n (skip_ws s2);
                  match skip_ws s3 with
                  | "" => None
                  | String c3 s4 =>
                      if Ascii.eqb c3 "," then
                        '(ms, s5) ← parse_members n (skip_ws s4);
                        Some ((key, v) :: ms, s5)
                      else if Ascii.eqb c3 "}" then Some ([(key, v)], s4)
                      else None
                  end
                else None
            end
          else None
      end
  end.

(** [json.loads(s)]. *)
Definition json_loads (s : string) : option pyval :=
  '(v, rest) ← parse_value (S (String.length s)) (skip_ws s);
  match skip_ws rest with
  | "" => Some v
  | _ => None
  end.

(** [v.get(key)]: only a dictionary has the method. *)
Definition py_get (v : pyval) (key : string) : M pyval :=
  match v with
  | PyDict d => ret (default PyNone (dict_get d key))
  | _ => raise AttributeError
  end.

(** [v[key]] for a string [key]. *)
Definition py_getitem (v : pyval) (key : string) : M pyval :=
  match v with
  | PyDict d =>
      match dict_get d key with
      | Some x => ret x
      | None => raise (KeyError key)
      end
  | _ => raise TypeError
  end.

(** [v == s] for a string [s]. *)
Definition py_eq_str (v : pyval) (s : string) : bool :=
  match v with
  | PyStr s' => String.eqb s' s
  | _ => false
  end.

(** A new empty dictionary object. *)
Definition dict_new : M loc := λ σ,
  let l := fresh (dom (heap σ)) in
  (Returned l, set_heap (<[l := []]> (heap σ)) σ).

Definition heap_read (l : loc) : M pydict := λ σ,
  match heap σ !! l with
  | Some d => (Returned d, σ)
  | None => (Raised DanglingReference, σ)
  end.

(** [l[key] = v] on a dictionary object. *)
Definition dict_setitem (l : loc) (key : string) (v : pyval) : M unit :=
  d <- heap_read l;;
  modify (λ σ, set_heap (<[l := dict_set d key v]> (heap σ)) σ).

(** [l[key]] on a dictionary object. *)
Definition dict_getitem (l : loc) (key : string) : M pyval :=
  d <- heap_read l;; py_getitem (PyDict d) key.

(** ** The monitoring provider *)

Section MonitoringProvider.
Context (E : environment).

(** [requests.get], [requests.put], [requests.post]: the request goes
    out, and the server's answer comes back or the transport raises. *)
Definition requests_request (r : request) : M response := λ σ,
  let σ' := set_sent (sent σ ++ [r]) σ in
  match http E (sent σ) r with
  | Some resp => (Returned resp, σ')
  | None => (Raised RequestException, σ')
  end.

(** [response.json()]. *)
Definition json_of (r : response) : M pyval :=
  match response_json r with
  | Some v => ret v
  | None => raise JSONDecodeError
  end.

(** [json.dumps(v)] as a call. *)
Definition json_dumps_call (v : pyval) : M string :=
  match json_dumps v with
  | Some s => ret s
  | None => raise TypeError
  end.

(** [os.path.abspath(v)]: it takes the path through [os.fspath], so it
    accepts a [str] and a path-like object and raises [TypeError] on any
    other value. *)
Definition abspath_call (v : pyval) : M string :=
  match os_fspath v with
  | Some s => ret (os_path_abspath E s)
  | None => raise TypeError
  end.

(** [{item[0]: item[1] for item in list(a)}] for a list [a] of lists or
    tuples that start with a string.  [__post_init__] calls it on the
    empty list only. *)
Fixpoint dict_of_items (items : list pyval) (acc : pydict) : M pydict :=
  match items with
  | [] => ret acc
  | (PyList (PyStr k :: v :: _) | PyTuple (PyStr k :: v :: _)) :: rest =>
      dict_of_items rest (dict_set acc k v)
  | (PyList ([] | [_]) | PyTuple ([] | [_])) :: _ => raise IndexError
  | _ => raise TypeError
  end.

Definition dict_comprehension (a : pyval) : M pydict :=
  match a with
  | PyList items => dict_of_items items []
  | _ => raise TypeError
  end.

Definition _headers (σ : state) : option (list (string * string)) :=
  let headers := None in
  match token σ with
  | Some t =>
      if negb (String.eqb t "") then Some [("Authorization", "Bearer " +:+ t)]
      else headers
  | None => headers
  end.

Definition check_response (response : response) (endpoint : string) : M unit :=
  let status_code := status_code response in
  if (status_code =? 200)%Z then ret tt
  else
    (if (status_code =? 404)%Z then
       sys_stderr_write ("The wms " +:+ endpoint +:+ " endpoint was not found");;;
       sys_exit (-1)
     else if (status_code =? 401)%Z then
       sys_stderr_write
         "Authorization is required with a WMS_MONITOR_TOKEN in the environment";;;
       sys_exit (-1)
     else if (status_code =? 500)%Z then
       sys_stderr_write
         ("There was a server error when trying to access " +:+ endpoint);;;
       sys_exit (-1)
     else if (status_code =? 403)%Z then
       sys_stderr_write ("Permission is denied to " +:+ endpoint +:+ ".");;;
       sys_exit (-1)
     else ret tt);;;
    sys_stderr_write
      ("The " +:+ endpoint +:+ " response code " +:+ int_str status_code
         +:+ " is not recognized.").

Definition service_info : M unit :=
  addr <- get address;;
  headers <- get _headers;;
  response <- requests_request
    (Request GET (py_str addr +:+ "/api/service-info") headers None None);;
  (if negb (status_code response =? 200)%Z then
     sys_stderr_write
       ("Problem with server: " +:+ py_str addr +:+ " " +:+ os_linesep E);;;
     sys_exit (-1)
   else ret tt);;;
  body <- json_of response;;
  status <- py_get body "status";;
  (if negb (py_eq_str status "running") then
     sys_stderr_write
       ("The status of the server " +:+ py_str addr
          +:+ " is not in 'running' mode " +:+ os_linesep E);;;
     sys_exit (-1)
   else ret tt).

Definition create_workflow : M unit :=
  md <- get metadata;;
  workdir <-
    (if negb (py_bool (default PyNone (dict_get md "directory")))
     then ret (os_getcwd E)
     else (d <- py_getitem (PyDict md) "directory";; abspath_call d));;
  let metadata :=
    [("command", default PyNone (dict_get md "command"));
     ("workdir", PyStr workdir)] in
  addr <- get address;;
  headers <- get _headers;;
  a <- get args;;
  response <- requests_request
    (Request GET (py_str addr +:+ "/create_workflow") headers
             (Some a) (Some (PyDict metadata)));;
  body <- json_of response;;
  id <- py_getitem body "id";;
  check_response response "/create_workflow";;;
  h <- get _headers;;
  let headers :=
    match h with
    | None => [("Content-Type", "application/json")]
    | Some h => dict_merge h [("Content-Type", "application/json")]
    end in
  data <- json_dumps_call a;;
  response_change_workflow_name <- requests_request
    (Request PUT (py_str addr +:+ "/api/workflow/" +:+ py_str id)
             (Some headers) None (Some (PyStr data)));;
  check_response response_change_workflow_name
    ("/api/workflow/" +:+ py_str id);;;
  modify (set_server (Some [("url", addr); ("id", id)])).

Definition __post_init__ : M unit :=
  modify (set_token (os_getenv E "WMS_MONITOR_TOKEN"));;;
  modify (set_address (settings_host E));;;
  modify (set_args (PyList []));;;
  a <- get args;;
  d <- dict_comprehension a;;
  modify (set_args (PyDict d));;;
  modify (set_metadata []);;;
  service_info;;;
  create_workflow.

(** The loop of [_parse_message] over the items of [msg]. *)
Fixpoint parse_items (msg result : loc) (items : pydict) : M unit :=
  match items with
  | [] => ret tt
  | (key, value) :: rest =>
      (if String.eqb key "job" then
         dict_setitem result key (PyStr (py_str value))
       else if String.eqb key "exception" then
         e <- dict_getitem msg "exception";;
         dict_setitem result key
           (PyStr (class_name e +:+ ": "
                     +:+ py_str (py_or e (PyStr "Exception"))))
       else dict_setitem result key value);;;
      parse_items msg result rest
  end.

Definition _parse_message (msg : loc) : M string :=
  result <- dict_new;;
  items <- heap_read msg;;
  parse_items msg result items;;;
  r <- heap_read result;;
  json_dumps_call (PyDict r).

(** [a + s] for a string [s]. *)
Definition py_add_str (a : pyval) (s : string) : M string :=
  match a with
  | PyStr u => ret (u +:+ s)
  | _ => raise TypeError
  end.

Definition log_handler (msg : loc) : M unit :=
  srv <- get server;;
  srv <- (match srv with
          | Some d => ret (PyDict d)
          | None => raise AttributeError
          end);;
  u <- py_getitem srv "url";;
  url <- py_add_str u "/update_workflow_status";;
  m <- _parse_message msg;;
  log <- get sent;;
  id <- py_getitem srv "id";;
  let server_info :=
    [("msg", PyStr m); ("timestamp", PyStr (time_asctime E log)); ("id", id)] in
  headers <- get _headers;;
  response <- requests_request
    (Request POST url headers None (Some (PyDict server_info)));;
  check_response response "/update_workflow_status".

End MonitoringProvider.

(** ** The vocabulary of the properties *)

(** [text] mentions [sub]: [sub] occurs in it. *)
Definition mentions (text sub : string) : Prop :=
  ∃ pre post, text = pre +:+ sub +:+ post.

Definition token_diagnostic : string :=
  "Authorization is required with a WMS_MONITOR_TOKEN in the environment".

(** The requests of the provider. *)
Definition service_info_request (addr : pyval) (headers : option (list (string * string)))
  : request :=
  Request GET (py_str addr +:+ "/api/service-info") headers None None.

Definition content_type : string * string := ("Content-Type", "application/json").

(** The GET to [/create_workflow] and the PUT to [/api/workflow/<id>]. *)
Definition create_workflow_request (addr : pyval)
    (headers : option (list (string * string))) (a command : pyval)
    (workdir : string) : request :=
  Request GET (py_str addr +:+ "/create_workflow") headers (Some a)
    (Some (PyDict [("command", command); ("workdir", PyStr workdir)])).

Definition update_workflow_request (addr : pyval)
    (headers : option (list (string * string))) (id : pyval) (data : string)
  : request :=
  Request PUT (py_str addr +:+ "/api/workflow/" +:+ py_str id)
    (Some match headers with
          | None => [content_type]
          | Some h => dict_merge h [content_type]
          end)
    None (Some (PyStr data)).

(** The state [__post_init__] leaves before it calls [service_info]. *)
Definition initialized (E : environment) (σ : state) : state :=
  set_metadata []
    (set_args (PyDict [])
       (set_address (settings_host E)
          (set_token (os_getenv E "WMS_MONITOR_TOKEN") σ))).

(** The working directory [create_workflow] reports, when computing it
    raises nothing. *)
Definition reported_workdir (E : environment) (md : pydict) : option string :=
  if negb (py_bool (default PyNone (dict_get md "directory"))) then
    Some (os_getcwd E)
  else
    match dict_get md "directory" with
    | Some v => os_path_abspath E <$> os_fspath v
    | None => None
    end.

(** The first request of [create_workflow] in state [σ]. *)
Definition first_request (σ : state) (wd : string) : request :=
  create_workflow_request (address σ) (_headers σ) (args σ)
    (default PyNone (dict_get (metadata σ) "command")) wd.

(** The headers of request [r] come from the result [h] of [_headers]:
    they are [h], or [h] with the content type merged in. *)
Definition headers_from (h : option (list (string * string))) (r : request) : Prop :=
  req_headers r = h
  ∨ req_headers r = Some match h with
                         | None => [content_type]
                         | Some a => dict_merge a [content_type]
                         end.

(** Started where [_headers] gives [h], the computation [m] leaves
    [_headers] at [h], and each request it sends takes its headers from [h]. *)
Definition routes {A} (h : option (list (string * string))) (m : M A) : Prop :=
  ∀ σ, _headers σ = h →
    _headers (m σ).2 = h
    ∧ ∃ new, sent (m σ).2 = sent σ ++ new ∧ Forall (headers_from h) new.

(** What [_parse_message] stores under [key] for the value [value] of the
    message. *)
Definition normalized (key : string) (value : pyval) : pyval :=
  if String.eqb key "job" then PyStr (py_str value)
  else if String.eqb key "exception" then
    PyStr (class_name value +:+ ": " +:+ py_str (py_or value (PyStr "Exception")))
  else value.

Definition normalize (d : pydict) : pydict :=
  map (λ kv, (kv.1, normalized kv.1 kv.2)) d.

(** The computation [m] leaves the object at [l] as it is. *)
Definition keeps {A} (l : loc) (m : M A) : Prop :=
  ∀ σ, heap (m σ).2 !! l = heap σ !! l.

(** What follows a value that [json.dumps] wrote: the end of the text, a
    comma or a closing bracket. *)
Definition delimited (rest : string) : bool :=
  match rest with
  | "" => true
  | String c _ => Ascii.eqb c "," || Ascii.eqb c "]" || Ascii.eqb c "}"
  end.

(** The value [json.loads] gives back for what [json.dumps] wrote of [v]:
    [v] with each tuple turned into a list. *)
Fixpoint jsonify (v : pyval) : pyval :=
  match v with
  | PyList l | PyTuple l => PyList (map jsonify l)
  | PyDict d => PyDict (map (λ kv, (kv.1, jsonify kv.2)) d)
  | _ => v
  end.

(** No tuple occurs in [v]. *)
Fixpoint tuple_free (v : pyval) : bool :=
  match v with
  | PyTuple _ => false
  | PyList l => forallb tuple_free l
  | PyDict d => forallb (λ kv, tuple_free kv.2) d
  | _ => true
  end.

(** The keys of each dictionary in [v] are distinct, as those of a Python
    dictionary are. *)
Fixpoint well_formed (v : pyval) : bool :=
  match v with
  | PyList l | PyTuple l | PyExc _ l => forallb well_formed l
  | PyDict d =>
      bool_decide (NoDup (map fst d)) && forallb (λ kv, well_formed kv.2) d
  | _ => true
  end.

(** Nested calls that decoding the text of the parts takes. *)
Definition parts_fuel (sizes : list nat) : nat :=
  foldr (λ s n, S (s + n)) 0%nat sizes.

(** Nested calls that decoding the text of [v] takes. *)
Fixpoint size (v : pyval) : nat :=
  match v with
  | PyList l | PyTuple l => S (parts_fuel (map size l))
  | PyDict d => S (parts_fuel (map (λ kv, size kv.2) d))
  | _ => 1
  end.

(** The text starts with a character that is no white space and no
    closing bracket. *)
Definition starts_value (t : string) : Prop :=
  ∃ c t', t = String c t' ∧ is_ws c = false ∧ Ascii.eqb c "]" = false.

(** Decoding the text of [v] gives [jsonify v] and stops after the text. *)
Definition decodes (v : pyval) : Prop :=
  ∀ t n rest,
    json_dumps v = Some t → well_formed v = true →
    (size v ≤ n)%nat → delimited rest = true →
    parse_value n (t +:+ rest) = Some (jsonify v, rest).

(** No exception and no object occurs in [v]: it is built from [None],
    booleans, integers, strings, lists, tuples and dictionaries. *)
Fixpoint plain (v : pyval) : bool :=
  match v with
  | PyExc _ _ | PyObj _ => false
  | PyList l | PyTuple l => forallb plain l
  | PyDict d => forallb (λ kv, plain kv.2) d
  | _ => true
  end.

(** The items of the message other than [job] and [exception] are JSON
    serializable values. *)
Definition serializable_items (d : pydict) : Prop :=
  ∀ k v, (k, v) ∈ d → k ≠ "job" → k ≠ "exception" →
    is_Some (json_dumps v) ∧ well_formed v = true.

(** The decoded message: the normalized items, tuples turned into lists. *)
Definition decoded_message (d : pydict) : pydict :=
  map (λ kv, (kv.1, jsonify kv.2)) (normalize d).

(** ** A process and a server for the examples *)

Definition fresh_state : state :=
  State None PyNone PyNone [] None ∅ "" [].

(** A server at [http://wms:5000] that answers the service-info request
    with [info], the create-workflow request with [created] and anything
    else with [other]. *)
Definition example_http (info created other : response)
    (log : list request) (r : request) : option response :=
  if String.eqb (req_url r) "http://wms:5000/api/service-info" then Some info
  else if String.eqb (req_url r) "http://wms:5000/create_workflow" then Some created
  else Some other.

Definition example_env (tok : option string) (info created other : response)
  : environment :=
  Environment (λ name, if String.eqb name "WMS_MONITOR_TOKEN" then tok else None)
    "/home/user/run" (λ p, p) (String "010" "")
    (λ _, "Wed Nov  4 10:00:00 2026")
    (example_http info created other)
    (PyStr "http://wms:5000").

Definition example_state : state :=
  set_address (PyStr "http://wms:5000") fresh_state.

Definition ok (body : pydict) : response := Response 200 (Some (PyDict body)).

(** A process whose heap holds the dictionary [d] at location 1. *)
Definition with_message (d : pydict) : state :=
  set_heap {[1%positive := d]} fresh_state.

Definition example_running : response := ok [("status", PyStr "running")].

(** The server is up and reports the state [paused]. *)
Definition example_paused : environment :=
  example_env None (ok [("status", PyStr "paused")]) (ok []) (ok []).

(** The server creates the workflow 42. *)
Definition example_env_42 : environment :=
  example_env None example_running (ok [("id", PyStr "42")]) (ok []).

(** The server fails to create a workflow: status 500 and no [id]. *)
Definition example_env_fail : environment :=
  example_env None example_running
    (Response 500 (Some (PyDict [("error", PyStr "down")]))) (ok []).

Definition example_job : pyval := PyObj (PyObject "Job" "align" "align" true None).

(** A path object, as [pathlib.Path("/data/run7")] is on a POSIX system. *)
Definition example_path : pyval :=
  PyObj (PyObject "PosixPath" "/data/run7" "PosixPath('/data/run7')" true
           (Some "/data/run7")).

Definition example_message : pydict :=
  [("level", PyStr "job_error"); ("job", example_job);
   ("exception", PyExc "ValueError" [PyStr "bad input"]);
   ("output", PyList [PyStr "a.bam"]); ("jobid", PyInt 7)].

(** ** The vocabulary of the further properties *)

(** The status codes on which [check_response] ends the process. *)
Definition fatal (code : Z) : Prop :=
  code = 404 ∨ code = 401 ∨ code = 500 ∨ code = 403.

(** The diagnostic that goes with each of these codes, for the endpoint
    [endpoint]. *)
Definition fatal_diagnostic (code : Z) (endpoint : string) : string :=
  if (code =? 404)%Z then "The wms " +:+ endpoint +:+ " endpoint was not found"
  else if (code =? 401)%Z then
    "Authorization is required with a WMS_MONITOR_TOKEN in the environment"
  else if (code =? 500)%Z then
    "There was a server error when trying to access " +:+ endpoint
  else "Permission is denied to " +:+ endpoint +:+ ".".

Definition is_dict (v : pyval) : bool :=
  match v with
  | PyDict _ => true
  | _ => false
  end.

(** The POST of [log_handler]. *)
Definition update_status_request (url : string)
    (headers : option (list (string * string))) (m timestamp : string)
    (id : pyval) : request :=
  Request POST (url +:+ "/update_workflow_status") headers None
    (Some (PyDict [("msg", PyStr m); ("timestamp", PyStr timestamp); ("id", id)])).

(** The computation [m] leaves the part [f] of the state as it is. *)
Definition frame {A B} (f : state → B) (m : M A) : Prop :=
  ∀ σ, f (m σ).2 = f σ.

(** The part [f] of the state depends on none of the error stream, the
    requests sent and the heap. *)
Definition process_free {B} (f : state → B) : Prop :=
  (∀ x σ, f (set_stderr x σ) = f σ)
  ∧ (∀ x σ, f (set_sent x σ) = f σ)
  ∧ (∀ x σ, f (set_heap x σ) = f σ).

(** The attributes of [self], the session among them. *)
Definition self_of (σ : state)
  : option string * pyval * pyval * pydict * option pydict :=
  (token σ, address σ, args σ, metadata σ, server σ).

(** A process with the session of workflow 42 and a message at location 1. *)
Definition example_session : state :=
  set_server (Some [("url", PyStr "http://wms:5000"); ("id", PyStr "42")])
    (set_address (PyStr "http://wms:5000") (with_message example_message)).

(** The attributes of [self] that [__post_init__] takes from outside. *)
Definition config_of (σ : state) : option string * pyval * pyval * pydict :=
  (token σ, address σ, args σ, metadata σ).

(** Unless it returns, the computation [m] leaves the part [f] of the
    state as it is. *)
Definition frame_unless_returned {A B} (f : state → B) (m : M A) : Prop :=
  ∀ σ, (∀ a, (m σ).1 ≠ Returned a) → f (m σ).2 = f σ.

(** Servers and processes for the examples of the further properties. *)
Definition example_offline : environment :=
  Environment (λ _, None) "/home/user/run" (λ p, p) (String "010" "")
    (λ _, "Wed Nov  4 10:00:00 2026") (λ _ _, None) (PyStr "http://wms:5000").

Definition example_created : response := ok [("id", PyStr "42")].

(** The answer to the service-info request has no JSON body. *)
Definition example_env_no_body : environment :=
  example_env None (Response 200 None) example_created (ok []).

(** The answer to the create-workflow request has no JSON body. *)
Definition example_env_created_no_body : environment :=
  example_env None example_running (Response 500 None) (ok []).

(** The create-workflow request is answered with [code]; the body has the
    [id]. *)
Definition example_env_created (code : Z) : environment :=
  example_env None example_running
    (Response code (Some (PyDict [("id", PyStr "42")]))) (ok []).

(** Every request but the first two is answered with [code]. *)
Definition example_env_other (code : Z) : environment :=
  example_env None example_running example_created (Response code None).

(** The text of the example message. *)
Definition example_text : string :=
  default "" (json_dumps (PyDict (normalize example_message))).

Definition example_post : request :=
  update_status_request "http://wms:5000" None example_text
    "Wed Nov  4 10:00:00 2026" (PyStr "42").

(** A message with a value that is not JSON serializable. *)
Definition example_bad_message : pydict :=
  [("level", PyStr "info"); ("rule", example_job)].

Definition example_bad_session : state :=
  set_server (Some [("url", PyStr "http://wms:5000"); ("id", PyStr "42")])
    (with_message example_bad_message).

(** Each request that the computation [m] sends satisfies [P]. *)
Definition sends {A} (P : request → Prop) (m : M A) : Prop :=
  ∀ σ, ∃ new, sent (m σ).2 = sent σ ++ new ∧ Forall P new.

(** The request carries none of the named arguments of the run: its query
    parameters are absent or the empty dictionary, and the body of a PUT is
    the text of the empty dictionary. *)
Definition carries_no_arguments (r : request) : Prop :=
  (req_params r = None ∨ req_params r = Some (PyDict []))
  ∧ (req_method r = PUT → req_data r = Some (PyStr "{}")).

(** * Properties *)

(** ** The primitives on examples *)

Example repr_demo :
  py_repr (PyDict [("a", PyTuple [PyInt (-12)]); ("b", PyList [PyStr "x"; PyNone])])
  = "{'a': (-12,), 'b': ['x', None]}".
Proof. vm_compute. reflexivity. Qed.

Example str_exc_demo :
  py_str (PyExc "ValueError" [PyStr "bad input"]) = "bad input"
  ∧ py_str (PyExc "KeyError" [PyStr "a"; PyInt 2]) = "('a', 2)"
  ∧ py_repr (PyExc "ValueError" [PyStr "x"]) = "ValueError('x')"
  ∧ str_repr "it's" = qq "'it" +:+ "'s" +:+ qq "'".
Proof. vm_compute. auto. Qed.

Example json_dumps_demo :
  json_dumps (PyDict [("level", PyStr "info"); ("jobs", PyTuple [PyInt 1; PyInt 2]);
                      ("done", PyBool false); ("note", PyNone)])
  = Some (qq "{'level': 'info', 'jobs': [1, 2], 'done': false, 'note': null}").
Proof. vm_compute. reflexivity. Qed.

Example json_loads_demo :
  json_loads (qq "{'a': [1, -20, true], 'b\u00e9\n': {'c': null}, 'a': 'x'} ")
  = Some (PyDict [("a", PyStr "x");
                  ("b" +:+ String "233" (String "010" ""), PyDict [("c", PyNone)])])
  ∧ json_loads "[1, 2.5]" = None
  ∧ json_loads "[01]" = None
  ∧ json_loads "[1,]" = None
  ∧ json_loads "-0" = Some (PyInt 0).
Proof. vm_compute. auto. Qed.

(** ** Text lemmas *)

Lemma append_cons (c : ascii) (s t : string) :
  String c s +:+ t = String c (s +:+ t).
Proof. reflexivity. Qed.

Lemma append_empty_l (s : string) : "" +:+ s = s.
Proof. reflexivity. Qed.

Lemma append_empty_r (s : string) : s +:+ "" = s.
Proof.
  induction s as [|c s IH]; [done |]. by rewrite append_cons, IH.
Qed.

Lemma append_assoc (a b c : string) : (a +:+ b) +:+ c = a +:+ b +:+ c.
Proof.
  induction a as [|x a IH]; [done |]. by rewrite !append_cons, IH.
Qed.

Lemma prefix_append (sub post : string) : String.prefix sub (sub +:+ post) = true.
Proof.
  induction sub as [|c sub IH].
  - rewrite append_empty_l. by destruct post.
  - rewrite append_cons. simpl. destruct (ascii_dec c c); [done | congruence].
Qed.

Lemma substring_of_prefix (sub s : string) :
  String.prefix sub s = true → substring_of sub s = true.
Proof. intros H. destruct s; simpl in *; by rewrite H. Qed.

(** [substring_of] decides [mentions]; the direction the counterexamples use. *)
Lemma mentions_substring_of (text sub : string) :
  mentions text sub → substring_of sub text = true.
Proof.
  intros (pre & post & ->). induction pre as [|c pre IH].
  - rewrite append_empty_l. apply substring_of_prefix, prefix_append.
  - rewrite append_cons. simpl. rewrite IH. by case_match.
Qed.

Lemma not_mentions (text sub : string) :
  substring_of sub text = false → ¬ mentions text sub.
Proof. intros H Hm. apply mentions_substring_of in Hm. congruence. Qed.

Lemma mentions_middle (pre sub post : string) : mentions (pre +:+ sub +:+ post) sub.
Proof. by exists pre, post. Qed.

Lemma mentions_end (pre sub : string) : mentions (pre +:+ sub) sub.
Proof. exists pre, "". f_equal. symmetry. apply append_empty_r. Qed.

(** ** [check_response] *)

Lemma check_response_200 (r : response) (endpoint : string) (σ : state) :
  status_code r = 200 → check_response r endpoint σ = (Returned tt, σ).
Proof. intros H. unfold check_response. by rewrite H. Qed.

(** C1, as amended.  For a response with status 404, 401, 403 or 500,
    [check_response] appends one diagnostic to the error stream and ends
    the process through [sys.exit(-1)], a non-zero exit status.  For 404,
    403 and 500 the diagnostic mentions the endpoint name; for 401 it is
    the fixed text about the token. *)
Theorem check_response_fatal (r : response) (endpoint : string) (σ : state) :
  status_code r = 404 ∨ status_code r = 401
    ∨ status_code r = 403 ∨ status_code r = 500 →
  ∃ diag,
    check_response r endpoint σ
      = (Exited (-1), set_stderr (stderr σ +:+ diag) σ)
    ∧ exit_status (-1) ≠ 0
    ∧ (if (status_code r =? 401)%Z then diag = token_diagnostic
       else mentions diag endpoint).
Proof.
  intros H. unfold check_response.
  destruct H as [H | [H | [H | H]]]; rewrite H; simpl;
    eexists; (split; [reflexivity | split; [done |]]).
  - apply mentions_middle.
  - reflexivity.
  - apply mentions_middle.
  - apply mentions_end.
Qed.

Lemma check_response_fatal_witness :
  (status_code (Response 404 None) = 404 ∨ status_code (Response 404 None) = 401
    ∨ status_code (Response 404 None) = 403
    ∨ status_code (Response 404 None) = 500)
  ∧ ∃ diag,
      check_response (Response 404 None) "/create_workflow" fresh_state
        = (Exited (-1), set_stderr (stderr fresh_state +:+ diag) fresh_state)
      ∧ exit_status (-1) ≠ 0
      ∧ mentions diag "/create_workflow".
Proof.
  split; [left; reflexivity |].
  apply (check_response_fatal (Response 404 None) "/create_workflow" fresh_state).
  left; reflexivity.
Defined.

(** C1, as stated, fails at status 401: the diagnostic written for the
    endpoint [/create_workflow] does not mention it. *)
Lemma check_response_401_omits_endpoint :
  ∃ diag,
    check_response (Response 401 None) "/create_workflow" fresh_state
      = (Exited (-1), set_stderr diag fresh_state)
    ∧ ¬ mentions diag "/create_workflow".
Proof.
  eexists. split; [reflexivity |]. apply not_mentions. vm_compute. reflexivity.
Qed.

(** C2.  For a status other than 200, 404, 401, 403 and 500,
    [check_response] appends the diagnostic that the response code is not
    recognized and returns; for status 200 it returns and leaves the
    state as it was. *)
Theorem check_response_unrecognized (r : response) (endpoint : string) (σ : state) :
  (status_code r ≠ 200 → status_code r ≠ 404 → status_code r ≠ 401 →
   status_code r ≠ 403 → status_code r ≠ 500 →
   check_response r endpoint σ
   = (Returned tt,
      set_stderr (stderr σ +:+ "The " +:+ endpoint +:+ " response code "
                    +:+ int_str (status_code r) +:+ " is not recognized.") σ))
  ∧ (status_code r = 200 → check_response r endpoint σ = (Returned tt, σ)).
Proof.
  split.
  - intros H1 H2 H3 H4 H5. unfold check_response.
    repeat match goal with
           | H : status_code r ≠ ?n |- _ =>
               apply Z.eqb_neq in H; rewrite H; clear H
           end.
    reflexivity.
  - apply check_response_200.
Qed.

Lemma check_response_unrecognized_witness :
  check_response (Response 302 None) "/update_workflow_status" fresh_state
  = (Returned tt,
     set_stderr "The /update_workflow_status response code 302 is not recognized."
       fresh_state)
  ∧ check_response (Response 200 None) "/update_workflow_status" fresh_state
    = (Returned tt, fresh_state).
Proof.
  pose proof (check_response_unrecognized (Response 302 None)
                "/update_workflow_status" fresh_state) as [H _].
  pose proof (check_response_unrecognized (Response 200 None)
                "/update_workflow_status" fresh_state) as [_ H'].
  split.
  - apply H; simpl; lia.
  - apply H'. reflexivity.
Defined.

(** ** [service_info] and [__post_init__] *)

Lemma append_inv_head (a b c : string) : a +:+ b = a +:+ c → b = c.
Proof.
  induction a as [|x a IH]; [done |].
  rewrite !append_cons. intros [= H]. by apply IH.
Qed.

Section ServiceInfo.
Context (E : environment).

(** C3, as amended.  When the service-info request is answered with
    status 200 and a JSON object whose [status] field is not the string
    [running] (or is missing), [service_info] appends a diagnostic that
    names the server address and says it is not in 'running' mode, and
    ends the process through [sys.exit(-1)], a non-zero exit status. *)
Theorem service_info_not_running (σ : state) (r : response) (body : pydict) :
  http E (sent σ) (service_info_request (address σ) (_headers σ)) = Some r →
  status_code r = 200 →
  response_json r = Some (PyDict body) →
  py_eq_str (default PyNone (dict_get body "status")) "running" = false →
  ∃ diag,
    service_info E σ
      = (Exited (-1),
         set_stderr (stderr σ +:+ diag)
           (set_sent (sent σ ++ [service_info_request (address σ) (_headers σ)]) σ))
    ∧ exit_status (-1) ≠ 0
    ∧ diag = "The status of the server " +:+ py_str (address σ)
               +:+ " is not in 'running' mode " +:+ os_linesep E
    ∧ mentions diag (py_str (address σ)).
Proof.
  intros Hhttp Hcode Hjson Hstatus.
  eexists. split; [| split; [done | split; [reflexivity |]]].
  - unfold service_info, bind, get, requests_request, service_info_request in *.
    simpl. rewrite Hhttp. simpl. rewrite Hcode. simpl.
    unfold json_of. rewrite Hjson. simpl. rewrite Hstatus. reflexivity.
  - apply mentions_middle.
Qed.

Lemma service_info_unreachable (σ : state) (r : response) :
  http E (sent σ) (service_info_request (address σ) (_headers σ)) = Some r →
  status_code r ≠ 200 →
  service_info E σ
  = (Exited (-1),
     set_stderr (stderr σ +:+ "Problem with server: " +:+ py_str (address σ)
                   +:+ " " +:+ os_linesep E)
       (set_sent (sent σ ++ [service_info_request (address σ) (_headers σ)]) σ)).
Proof.
  intros Hhttp Hcode%Z.eqb_neq.
  unfold service_info, bind, get, requests_request, service_info_request in *.
  simpl. rewrite Hhttp. simpl. rewrite Hcode. reflexivity.
Qed.
End ServiceInfo.

Lemma service_info_not_running_witness :
  ∃ diag,
    service_info example_paused example_state
      = (Exited (-1),
         set_stderr (stderr example_state +:+ diag)
           (set_sent (sent example_state
                        ++ [service_info_request (address example_state)
                              (_headers example_state)]) example_state))
    ∧ exit_status (-1) ≠ 0
    ∧ diag = "The status of the server " +:+ py_str (address example_state)
               +:+ " is not in 'running' mode " +:+ os_linesep example_paused
    ∧ mentions diag (py_str (address example_state)).
Proof.
  apply (service_info_not_running example_paused example_state
           (ok [("status", PyStr "paused")]) [("status", PyStr "paused")]);
    reflexivity.
Defined.

(** C3, as stated, fails: for a server that reports the state [paused]
    the diagnostic does not name that state. *)
Lemma service_info_omits_reported_state :
  ∃ diag,
    service_info example_paused example_state
      = (Exited (-1),
         set_stderr diag
           (set_sent [service_info_request (PyStr "http://wms:5000") None]
              example_state))
    ∧ diag = "The status of the server http://wms:5000 is not in 'running' mode "
               +:+ String "010" ""
    ∧ ¬ mentions diag "paused".
Proof.
  eexists. split; [reflexivity |]. split; [reflexivity |].
  apply not_mentions. vm_compute. reflexivity.
Qed.

Section PostInit.
Context (E : environment).

(** C6.  When the GET to [<address>/api/service-info] is answered with a
    status other than 200, [__post_init__] appends a diagnostic that names
    the address and ends the process through [sys.exit(-1)], a non-zero
    exit status; the service-info request is the only request it has
    issued, so none went to [<address>/create_workflow]. *)
Theorem post_init_unreachable (σ : state) (r : response) :
  let host := settings_host E in
  let info := service_info_request host (_headers (initialized E σ)) in
  http E (sent σ) info = Some r →
  status_code r ≠ 200 →
  ∃ diag,
    __post_init__ E σ
      = (Exited (-1),
         set_stderr (stderr σ +:+ diag) (set_sent (sent σ ++ [info]) (initialized E σ)))
    ∧ exit_status (-1) ≠ 0
    ∧ diag = "Problem with server: " +:+ py_str host +:+ " " +:+ os_linesep E
    ∧ mentions diag (py_str host)
    ∧ req_url info ≠ py_str host +:+ "/create_workflow".
Proof.
  intros host info Hhttp Hcode.
  eexists. split; [| split; [done | split; [reflexivity | split]]].
  - change (__post_init__ E σ)
      with (bind (service_info E) (λ _, create_workflow E) (initialized E σ)).
    unfold bind.
    by rewrite (service_info_unreachable E (initialized E σ) r Hhttp Hcode).
  - apply mentions_middle.
  - simpl. intros H%append_inv_head. discriminate H.
Qed.
End PostInit.

Lemma post_init_unreachable_witness :
  let E := example_env None (Response 500 None) (ok []) (ok []) in
  let info := service_info_request (PyStr "http://wms:5000") None in
  ∃ diag,
    __post_init__ E fresh_state
      = (Exited (-1),
         set_stderr (stderr fresh_state +:+ diag)
           (set_sent (sent fresh_state ++ [info]) (initialized E fresh_state)))
    ∧ exit_status (-1) ≠ 0
    ∧ diag = "Problem with server: " +:+ "http://wms:5000" +:+ " " +:+ os_linesep E
    ∧ mentions diag "http://wms:5000"
    ∧ req_url info ≠ "http://wms:5000" +:+ "/create_workflow".
Proof.
  intros E info.
  apply (post_init_unreachable E fresh_state (Response 500 None)).
  - reflexivity.
  - simpl. lia.
Defined.

(** ** [create_workflow] *)

Lemma bind_get {A B} (f : state → A) (k : A → M B) (σ : state) :
  bind (get f) k σ = k (f σ) σ.
Proof. reflexivity. Qed.

Lemma bind_modify {B} (f : state → state) (k : unit → M B) (σ : state) :
  bind (modify f) k σ = k tt (f σ).
Proof. reflexivity. Qed.

Lemma bind_ret {A B} (a : A) (k : A → M B) (σ : state) :
  bind (ret a) k σ = k a σ.
Proof. reflexivity. Qed.

Lemma bind_returned {A B} (m : M A) (k : A → M B) (σ σ' : state) (a : A) :
  m σ = (Returned a, σ') → bind m k σ = k a σ'.
Proof. intros H. unfold bind. by rewrite H. Qed.

Lemma bind_raised {A B} (m : M A) (k : A → M B) (σ σ' : state) (e : pyexn) :
  m σ = (Raised e, σ') → bind m k σ = (Raised e, σ').
Proof. intros H. unfold bind. by rewrite H. Qed.

Lemma bind_exited {A B} (m : M A) (k : A → M B) (σ σ' : state) (c : Z) :
  m σ = (Exited c, σ') → bind m k σ = (Exited c, σ').
Proof. intros H. unfold bind. by rewrite H. Qed.

Section CreateWorkflow.
Context (E : environment).

Lemma workdir_computed (σ : state) (md : pydict) (wd : string) :
  reported_workdir E md = Some wd →
  (if negb (py_bool (default PyNone (dict_get md "directory")))
   then ret (os_getcwd E)
   else (d <- py_getitem (PyDict md) "directory";; abspath_call E d)) σ
  = (Returned wd, σ).
Proof.
  unfold reported_workdir. intros H.
  destruct (negb _); [by simplify_eq |].
  unfold py_getitem, bind.
  destruct (dict_get md "directory") as [v|]; [| done].
  unfold abspath_call, ret. destruct (os_fspath v); by simplify_eq/=.
Qed.

Lemma create_workflow_sends (σ : state) (wd : string) (r : response) :
  reported_workdir E (metadata σ) = Some wd →
  http E (sent σ) (first_request σ wd) = Some r →
  create_workflow E σ
  = (body <- json_of r;;
     id <- py_getitem body "id";;
     check_response r "/create_workflow";;;
     h <- get _headers;;
     data <- json_dumps_call (args σ);;
     response_change_workflow_name <- requests_request E
       (update_workflow_request (address σ) h id data);;
     check_response response_change_workflow_name
       ("/api/workflow/" +:+ py_str id);;;
     modify (set_server (Some [("url", address σ); ("id", id)])))
      (set_sent (sent σ ++ [first_request σ wd]) σ).
Proof.
  intros Hwd Hhttp. unfold create_workflow.
  rewrite bind_get. erewrite bind_returned; [| by apply workdir_computed].
  cbv zeta. rewrite !bind_get.
  erewrite bind_returned; [reflexivity |].
  unfold requests_request.
  change (Request GET _ _ _ _) with (first_request σ wd).
  by rewrite Hhttp.
Qed.

(** C9.  [create_workflow] takes [id] out of the decoded body before it
    calls [check_response]: when the answer to the create-workflow
    request is a JSON object without the key [id], [create_workflow]
    ends in [KeyError] on that key; whatever the status code of the
    answer, nothing is written to the error stream, the process does not
    exit and no further request is sent. *)
Theorem create_workflow_missing_id
    (σ : state) (wd : string) (r : response) (body : pydict) :
  reported_workdir E (metadata σ) = Some wd →
  http E (sent σ) (first_request σ wd) = Some r →
  response_json r = Some (PyDict body) →
  dict_get body "id" = None →
  create_workflow E σ
  = (Raised (KeyError "id"), set_sent (sent σ ++ [first_request σ wd]) σ).
Proof.
  intros Hwd Hhttp Hjson Hid.
  rewrite (create_workflow_sends σ wd r Hwd Hhttp).
  unfold json_of. rewrite Hjson, bind_ret.
  apply bind_raised. unfold py_getitem. by rewrite Hid.
Qed.

(** C7.  When the answer to the create-workflow request has status 200
    and a JSON object with the key [id], and the answer to the following
    PUT to [/api/workflow/<id>] has status 200, [create_workflow]
    returns; it has sent these two requests, has written nothing to the
    error stream, and has set the session to the address and that [id].
    The claim is the case where [id] is the string 42. *)
Theorem create_workflow_session
    (σ : state) (wd data : string) (r r' : response) (body : pydict) (id : pyval) :
  let first := first_request σ wd in
  let second := update_workflow_request (address σ) (_headers σ) id data in
  reported_workdir E (metadata σ) = Some wd →
  json_dumps (args σ) = Some data →
  http E (sent σ) first = Some r →
  status_code r = 200 →
  response_json r = Some (PyDict body) →
  dict_get body "id" = Some id →
  http E (sent σ ++ [first]) second = Some r' →
  status_code r' = 200 →
  create_workflow E σ
  = (Returned tt,
     set_server (Some [("url", address σ); ("id", id)])
       (set_sent (sent σ ++ [first] ++ [second]) σ)).
Proof.
  intros first second Hwd Hdata Hhttp Hcode Hjson Hid Hhttp' Hcode'.
  rewrite (create_workflow_sends σ wd r Hwd Hhttp).
  unfold json_of. rewrite Hjson, bind_ret.
  unfold py_getitem. rewrite Hid, bind_ret.
  erewrite bind_returned; [| by apply check_response_200].
  rewrite bind_get. unfold json_dumps_call. rewrite Hdata, bind_ret.
  erewrite bind_returned; cycle 1.
  { unfold requests_request. simpl sent. fold first.
    change (update_workflow_request _ _ id data) with second.
    rewrite Hhttp'. reflexivity. }
  erewrite bind_returned; [| by apply check_response_200].
  unfold modify, set_server, set_sent. simpl. by rewrite <- app_assoc.
Qed.
End CreateWorkflow.

Lemma create_workflow_session_witness :
  let σ := initialized example_env_42 fresh_state in
  let first := first_request σ "/home/user/run" in
  let second :=
    update_workflow_request (PyStr "http://wms:5000") None (PyStr "42") "{}" in
  create_workflow example_env_42 σ
  = (Returned tt,
     set_server (Some [("url", PyStr "http://wms:5000"); ("id", PyStr "42")])
       (set_sent (sent σ ++ [first] ++ [second]) σ)).
Proof.
  intros σ first second.
  apply (create_workflow_session example_env_42 σ "/home/user/run" "{}"
           (ok [("id", PyStr "42")]) (ok []) [("id", PyStr "42")] (PyStr "42"));
    reflexivity.
Defined.

Lemma create_workflow_missing_id_witness :
  let σ := initialized example_env_fail fresh_state in
  create_workflow example_env_fail σ
  = (Raised (KeyError "id"),
     set_sent (sent σ ++ [first_request σ "/home/user/run"]) σ).
Proof.
  intros σ.
  apply (create_workflow_missing_id example_env_fail σ "/home/user/run"
           (Response 500 (Some (PyDict [("error", PyStr "down")])))
           [("error", PyStr "down")]);
    reflexivity.
Defined.

(** The whole start-up against the example server. *)
Example post_init_demo :
  let '(o, σ) := __post_init__ example_env_42 fresh_state in
  o = Returned tt
  ∧ server σ = Some [("url", PyStr "http://wms:5000"); ("id", PyStr "42")]
  ∧ stderr σ = ""
  ∧ map req_url (sent σ)
    = ["http://wms:5000/api/service-info"; "http://wms:5000/create_workflow";
       "http://wms:5000/api/workflow/42"].
Proof. vm_compute. auto. Qed.

(** ** Authentication headers *)

Section Routes.
Context (E : environment) (h : option (list (string * string))).

Lemma routes_pure {A} (m : M A) :
  (∀ σ, token (m σ).2 = token σ ∧ sent (m σ).2 = sent σ) → routes h m.
Proof.
  intros Hm σ Hσ. destruct (Hm σ) as [Ht Hs]. split.
  - unfold _headers in *. by rewrite Ht.
  - exists []. by rewrite Hs, app_nil_r.
Qed.

Lemma routes_ret {A} (a : A) : routes h (ret a).
Proof. by apply routes_pure. Qed.

Lemma routes_raise {A} (e : pyexn) : routes h (@raise A e).
Proof. by apply routes_pure. Qed.

Lemma routes_exit {A} (c : Z) : routes h (@sys_exit A c).
Proof. by apply routes_pure. Qed.

Lemma routes_get {A} (f : state → A) : routes h (get f).
Proof. by apply routes_pure. Qed.

Lemma routes_bind {A B} (m : M A) (k : A → M B) :
  routes h m → (∀ a, routes h (k a)) → routes h (bind m k).
Proof.
  intros Hm Hk σ Hσ. destruct (Hm σ Hσ) as (Hh & new & Hs & Hnew).
  unfold bind. destruct (m σ) as [[a | e | c] σ']; simpl in *;
    [| by eauto..].
  destruct (Hk a σ' Hh) as (Hh' & new' & Hs' & Hnew'). split; [done |].
  exists (new ++ new'). split.
  - by rewrite Hs', Hs, <- app_assoc.
  - by apply Forall_app.
Qed.

(** Reading [_headers] gives [h]. *)
Lemma routes_bind_headers {B} (k : option (list (string * string)) → M B) :
  routes h (k h) → routes h (bind (get _headers) k).
Proof. intros Hk σ Hσ. rewrite bind_get, Hσ. by apply Hk. Qed.

Lemma routes_request (r : request) :
  headers_from h r → routes h (requests_request E r).
Proof.
  intros Hr σ Hσ. unfold requests_request.
  destruct (http E (sent σ) r); simpl; (split; [done |]);
    exists [r]; split; auto.
Qed.

Lemma routes_stderr (s : string) : routes h (sys_stderr_write s).
Proof. by apply routes_pure. Qed.

Lemma routes_check_response (r : response) (endpoint : string) :
  routes h (check_response r endpoint).
Proof.
  unfold check_response.
  repeat first
    [ case_match
    | apply routes_bind; [| intros ?]
    | apply routes_ret | apply routes_exit | apply routes_stderr ].
Qed.

Lemma routes_heap_read (l : loc) : routes h (heap_read l).
Proof. apply routes_pure. intros σ. unfold heap_read. by case_match. Qed.

Lemma routes_dict_setitem (l : loc) (key : string) (v : pyval) :
  routes h (dict_setitem l key v).
Proof.
  apply routes_bind; [apply routes_heap_read | intros d]. by apply routes_pure.
Qed.

Lemma routes_py_getitem (v : pyval) (key : string) : routes h (py_getitem v key).
Proof.
  unfold py_getitem.
  repeat case_match; first [apply routes_ret | apply routes_raise].
Qed.

Lemma routes_parse_items (msg result : loc) (items : pydict) :
  routes h (parse_items msg result items).
Proof.
  induction items as [|[key value] items IH]; simpl; [apply routes_ret |].
  apply routes_bind; [| by intros _].
  repeat case_match; try apply routes_dict_setitem.
  apply routes_bind.
  - apply routes_bind; [apply routes_heap_read | intros d; apply routes_py_getitem].
  - intros e. apply routes_dict_setitem.
Qed.

Lemma routes_parse_message (msg : loc) : routes h (_parse_message msg).
Proof.
  unfold _parse_message.
  apply routes_bind; [by apply routes_pure | intros result].
  apply routes_bind; [apply routes_heap_read | intros items].
  apply routes_bind; [apply routes_parse_items | intros _].
  apply routes_bind; [apply routes_heap_read | intros r].
  unfold json_dumps_call. case_match; [apply routes_ret | apply routes_raise].
Qed.

Lemma routes_service_info : routes h (service_info E).
Proof.
  unfold service_info.
  apply routes_bind; [apply routes_get | intros addr].
  apply routes_bind_headers.
  apply routes_bind; [apply routes_request; by left | intros r].
  apply routes_bind.
  { case_match; [| apply routes_ret].
    apply routes_bind; [apply routes_stderr | intros _; apply routes_exit]. }
  intros _. apply routes_bind.
  { unfold json_of. case_match; [apply routes_ret | apply routes_raise]. }
  intros body. apply routes_bind.
  { unfold py_get. case_match; first [apply routes_ret | apply routes_raise]. }
  intros status. case_match; [| apply routes_ret].
  apply routes_bind; [apply routes_stderr | intros _; apply routes_exit].
Qed.

Lemma routes_create_workflow : routes h (create_workflow E).
Proof.
  unfold create_workflow.
  apply routes_bind; [apply routes_get | intros md].
  apply routes_bind.
  { case_match; [apply routes_ret |].
    apply routes_bind; [apply routes_py_getitem | intros d].
    unfold abspath_call. case_match; first [apply routes_ret | apply routes_raise]. }
  intros workdir. cbv zeta.
  apply routes_bind; [apply routes_get | intros addr].
  apply routes_bind_headers.
  apply routes_bind; [apply routes_get | intros a].
  apply routes_bind; [apply routes_request; by left | intros r].
  apply routes_bind.
  { unfold json_of. case_match; [apply routes_ret | apply routes_raise]. }
  intros body.
  apply routes_bind; [apply routes_py_getitem | intros id].
  apply routes_bind; [apply routes_check_response | intros _].
  apply routes_bind_headers.
  apply routes_bind.
  { unfold json_dumps_call. case_match; [apply routes_ret | apply routes_raise]. }
  intros data.
  apply routes_bind; [apply routes_request; by right | intros r'].
  apply routes_bind; [apply routes_check_response | intros _].
  by apply routes_pure.
Qed.

Lemma routes_log_handler (msg : loc) : routes h (log_handler E msg).
Proof.
  unfold log_handler.
  apply routes_bind; [apply routes_get | intros srv].
  apply routes_bind.
  { case_match; [apply routes_ret | apply routes_raise]. }
  intros srv'.
  apply routes_bind; [apply routes_py_getitem | intros u].
  apply routes_bind.
  { unfold py_add_str. case_match; first [apply routes_ret | apply routes_raise]. }
  intros url.
  apply routes_bind; [apply routes_parse_message | intros m].
  apply routes_bind; [apply routes_get | intros log].
  apply routes_bind; [apply routes_py_getitem | intros id].
  cbv zeta. apply routes_bind_headers.
  apply routes_bind; [apply routes_request; by left | intros r].
  apply routes_check_response.
Qed.
End Routes.

Lemma routes_post_init (E : environment) (σ : state) :
  let h := _headers (initialized E σ) in
  _headers (__post_init__ E σ).2 = h
  ∧ ∃ new, sent (__post_init__ E σ).2 = sent σ ++ new ∧ Forall (headers_from h) new.
Proof.
  intros h.
  change (__post_init__ E σ)
    with (bind (service_info E) (λ _, create_workflow E) (initialized E σ)).
  assert (routes h (bind (service_info E) (λ _, create_workflow E))) as H.
  { apply routes_bind; [apply routes_service_info |].
    intros _. apply routes_create_workflow. }
  exact (H (initialized E σ) eq_refl).
Qed.

(** C8.  In every state [_headers] is settled by the token: it returns
    the one header [Authorization: Bearer <token>] when the token is a text
    that is not empty, and no headers ([None]) both when there is no token
    and when the token is the empty text, which [if self.token] takes for no
    token; so it returns headers exactly when the token is a text that is
    not empty.  [__post_init__] takes the token from the environment
    variable [WMS_MONITOR_TOKEN]; and every request that [service_info],
    [create_workflow], [log_handler] and so [__post_init__] send (the GETs,
    the PUT and the POST) carries the result of [_headers], the PUT with
    the content type merged in. *)
Theorem headers_contract (E : environment) (σ : state) (t : string) (msg : loc)
    (h : option (list (string * string))) :
  (token σ = Some t → t ≠ "" →
   _headers σ = Some [("Authorization", "Bearer " +:+ t)])
  ∧ (token σ = None → _headers σ = None)
  ∧ (token σ = Some "" → _headers σ = None)
  ∧ (is_Some (_headers σ) ↔ ∃ t', token σ = Some t' ∧ t' ≠ "")
  ∧ token (initialized E σ) = os_getenv E "WMS_MONITOR_TOKEN"
  ∧ routes h (service_info E)
  ∧ routes h (create_workflow E)
  ∧ routes h (log_handler E msg)
  ∧ (let h := _headers (initialized E σ) in
     _headers (__post_init__ E σ).2 = h
     ∧ ∃ new, sent (__post_init__ E σ).2 = sent σ ++ new
              ∧ Forall (headers_from h) new).
Proof.
  split; [| split; [| split; [| split; [| split; [| split; [| split; [| split]]]]]]].
  - intros Ht Hne. unfold _headers. rewrite Ht.
    apply String.eqb_neq in Hne. by rewrite Hne.
  - intros Ht. unfold _headers. by rewrite Ht.
  - intros Ht. unfold _headers. by rewrite Ht.
  - unfold _headers. destruct (token σ) as [t'|]; simpl.
    + destruct (String.eqb_spec t' "") as [-> | Hne]; simpl.
      * split; [by intros [? ?] | by intros (? & [= <-] & ?)].
      * split; [by exists t' | by eexists].
    + split; [by intros [? ?] | by intros (? & ? & ?)].
  - reflexivity.
  - apply routes_service_info.
  - apply routes_create_workflow.
  - apply routes_log_handler.
  - apply routes_post_init.
Qed.

Lemma headers_contract_witness :
  let E := example_env (Some "s3cret") (ok [("status", PyStr "running")])
             (ok [("id", PyStr "42")]) (ok []) in
  _headers (initialized E fresh_state)
    = Some [("Authorization", "Bearer s3cret")]
  ∧ _headers fresh_state = None
  ∧ _headers (set_token (Some "") fresh_state) = None
  ∧ map req_headers (sent (__post_init__ E fresh_state).2)
    = [Some [("Authorization", "Bearer s3cret")];
       Some [("Authorization", "Bearer s3cret")];
       Some [("Authorization", "Bearer s3cret"); content_type]].
Proof.
  intros E.
  pose proof (headers_contract E (initialized E fresh_state) "s3cret" 1%positive None)
    as (H & _).
  pose proof (headers_contract E fresh_state "" 1%positive None) as (_ & H' & _).
  pose proof (headers_contract E (set_token (Some "") fresh_state) "" 1%positive None)
    as (_ & _ & H'' & _).
  split; [| split; [| split]].
  - apply H; [reflexivity | discriminate].
  - apply H'. reflexivity.
  - apply H''. reflexivity.
  - vm_compute. reflexivity.
Defined.

(** ** [_parse_message] *)

Lemma dict_set_new {V} (d : list (string * V)) (key : string) (v : V) :
  key ∉ map fst d → dict_set d key v = d ++ [(key, v)].
Proof.
  induction d as [|[k x] d IH]; simpl; [done |].
  intros Hk. apply not_elem_of_cons in Hk as [Hne Hk].
  destruct (String.eqb_spec k key) as [-> | _]; [done |]. by rewrite IH.
Qed.

Lemma dict_get_first (d : pydict) (key : string) (v : pyval) :
  NoDup (map fst d) → (key, v) ∈ d → dict_get d key = Some v.
Proof.
  induction d as [|[k x] d IH]; simpl; [by intros _ ?%elem_of_nil |].
  intros [Hk Hd]%NoDup_cons [[= <- <-] | Hin]%elem_of_cons.
  - by rewrite String.eqb_refl.
  - destruct (String.eqb_spec k key) as [-> | _]; [| by apply IH].
    destruct Hk. apply list_elem_of_fmap. by exists (key, v).
Qed.

Section ParseMessage.
Context (msg result : loc) (d : pydict).
Hypothesis Hfresh : msg ≠ result.

Lemma parse_items_normalizes (items acc : pydict) (σ : state) :
  heap σ !! msg = Some d →
  heap σ !! result = Some acc →
  (∀ v, ("exception", v) ∈ items → dict_get d "exception" = Some v) →
  NoDup (map fst (acc ++ items)) →
  parse_items msg result items σ
  = (Returned tt, set_heap (<[result := acc ++ normalize items]> (heap σ)) σ).
Proof.
  revert acc σ. induction items as [|[key value] items IH];
    intros acc σ Hmsg Hres Hexc Hnodup.
  - simpl. rewrite app_nil_r, insert_id by done. by destruct σ.
  - assert (key ∉ map fst acc) as Hkey.
    { rewrite fmap_app in Hnodup. apply NoDup_app in Hnodup as (_ & Hd & _).
      intros Hin. apply (Hd key Hin). simpl. left. }
    assert (∀ v', dict_setitem result key v' σ
              = (Returned tt,
                 set_heap (<[result := acc ++ [(key, v')]]> (heap σ)) σ)) as Hset.
    { intros v'. unfold dict_setitem, bind, heap_read. rewrite Hres.
      unfold modify. by rewrite dict_set_new. }
    assert (bind
              (if String.eqb key "job" then
                 dict_setitem result key (PyStr (py_str value))
               else if String.eqb key "exception" then
                 bind (dict_getitem msg "exception") (λ e,
                   dict_setitem result key
                     (PyStr (class_name e +:+ ": "
                               +:+ py_str (py_or e (PyStr "Exception")))))
               else dict_setitem result key value)
              (λ _, parse_items msg result items) σ
            = parse_items msg result items
                (set_heap (<[result := acc ++ [(key, normalized key value)]]>
                             (heap σ)) σ)) as Hstep.
    { unfold normalized.
      destruct (String.eqb key "job");
        [by erewrite bind_returned by apply Hset |].
      destruct (String.eqb_spec key "exception") as [-> | _];
        [| by erewrite bind_returned by apply Hset].
      erewrite bind_returned; [reflexivity |].
      erewrite bind_returned; [apply Hset |].
      unfold dict_getitem, bind, heap_read. rewrite Hmsg. simpl.
      rewrite (Hexc value); [done | left]. }
    change (parse_items msg result ((key, value) :: items) σ)
      with (bind
              (if String.eqb key "job" then
                 dict_setitem result key (PyStr (py_str value))
               else if String.eqb key "exception" then
                 bind (dict_getitem msg "exception") (λ e,
                   dict_setitem result key
                     (PyStr (class_name e +:+ ": "
                               +:+ py_str (py_or e (PyStr "Exception")))))
               else dict_setitem result key value)
              (λ _, parse_items msg result items) σ).
    rewrite Hstep.
    rewrite (IH (acc ++ [(key, normalized key value)])); simpl.
    + by rewrite insert_insert_eq, <- app_assoc.
    + by rewrite lookup_insert_ne.
    + by rewrite lookup_insert_eq.
    + intros v Hv. apply Hexc. by right.
    + rewrite <- app_assoc. rewrite !fmap_app in *. exact Hnodup.
Qed.
End ParseMessage.

(** [_parse_message] on a message with distinct keys: the new dictionary
    holds the normalized items in the order of the message, and the result
    is its JSON text. *)
Lemma parse_message_normalizes (msg : loc) (d : pydict) (σ : state) :
  heap σ !! msg = Some d →
  NoDup (map fst d) →
  _parse_message msg σ
  = (match json_dumps (PyDict (normalize d)) with
     | Some s => Returned s
     | None => Raised TypeError
     end,
     set_heap (<[fresh (dom (heap σ)) := normalize d]> (heap σ)) σ).
Proof.
  intros Hmsg Hnodup. unfold _parse_message.
  set (result := fresh (dom (heap σ))).
  assert (heap σ !! result = None) as Hnone.
  { apply not_elem_of_dom, is_fresh. }
  assert (msg ≠ result) as Hne by (intros ->; congruence).
  erewrite bind_returned by reflexivity. fold result.
  erewrite bind_returned; cycle 1.
  { unfold heap_read. simpl. by rewrite lookup_insert_ne, Hmsg. }
  erewrite bind_returned; cycle 1.
  { apply (parse_items_normalizes msg result d Hne d []); simpl.
    - by rewrite lookup_insert_ne.
    - by rewrite lookup_insert_eq.
    - intros v Hv. by apply dict_get_first.
    - done. }
  cbn [heap set_heap app]. rewrite insert_insert_eq.
  erewrite bind_returned; cycle 1.
  { unfold heap_read. simpl. rewrite lookup_insert_eq. reflexivity. }
  unfold json_dumps_call. destruct (json_dumps (PyDict _)); reflexivity.
Qed.

(** *** The message is not written to *)

Section Keeps.
Context (l : loc).

Lemma keeps_bind {A B} (m : M A) (k : A → M B) :
  keeps l m → (∀ a, keeps l (k a)) → keeps l (bind m k).
Proof.
  intros Hm Hk σ. specialize (Hm σ). unfold bind.
  destruct (m σ) as [[a | e | c] σ']; simpl in *; [| done..].
  by rewrite Hk.
Qed.

Lemma keeps_ret {A} (a : A) : keeps l (ret a).
Proof. done. Qed.

Lemma keeps_heap_read (l' : loc) : keeps l (heap_read l').
Proof. intros σ. unfold heap_read. by destruct (heap σ !! l'). Qed.

Lemma keeps_py_getitem (v : pyval) (key : string) : keeps l (py_getitem v key).
Proof. intros σ. unfold py_getitem. by repeat case_match. Qed.

Lemma keeps_dict_setitem (l' : loc) (key : string) (v : pyval) :
  l ≠ l' → keeps l (dict_setitem l' key v).
Proof.
  intros Hne. apply keeps_bind; [apply keeps_heap_read |].
  intros d σ. simpl. by rewrite lookup_insert_ne.
Qed.

Lemma keeps_parse_items (msg result : loc) (items : pydict) :
  l ≠ result → keeps l (parse_items msg result items).
Proof.
  intros Hne. induction items as [|[key value] items IH]; simpl;
    [apply keeps_ret |].
  apply keeps_bind; [| by intros _].
  repeat case_match; try by apply keeps_dict_setitem.
  apply keeps_bind.
  - apply keeps_bind; [apply keeps_heap_read | intros d; apply keeps_py_getitem].
  - intros e. by apply keeps_dict_setitem.
Qed.
End Keeps.

Lemma parse_message_keeps (msg l : loc) (σ : state) :
  l ≠ fresh (dom (heap σ)) →
  heap (_parse_message msg σ).2 !! l = heap σ !! l.
Proof.
  intros Hne. unfold _parse_message.
  change (bind dict_new ?k σ)
    with (k (fresh (dom (heap σ)))
            (set_heap (<[fresh (dom (heap σ)) := []]> (heap σ)) σ)).
  set (result := fresh (dom (heap σ))) in *.
  assert (keeps l
            (items <- heap_read msg;;
             parse_items msg result items;;;
             r <- heap_read result;;
             json_dumps_call (PyDict r))) as Hkeeps.
  { apply keeps_bind; [apply keeps_heap_read | intros items].
    apply keeps_bind; [by apply keeps_parse_items | intros _].
    apply keeps_bind; [apply keeps_heap_read | intros r].
    intros σ'. unfold json_dumps_call. by case_match. }
  rewrite Hkeeps. simpl. by rewrite lookup_insert_ne.
Qed.

(** C10.  [_parse_message] builds its result in a new dictionary and
    writes to no other: the new dictionary is at a location that held no
    object before the call, every object of the heap before the call, the
    message among them, has after the call the items it had, and without
    the new dictionary the heap is the heap before the call. *)
Theorem parse_message_keeps_input (msg : loc) (σ : state) :
  let result := fresh (dom (heap σ)) in
  let σ' := (_parse_message msg σ).2 in
  heap σ !! result = None
  ∧ heap σ ⊆ heap σ'
  ∧ delete result (heap σ') = heap σ.
Proof.
  intros result σ'.
  assert (heap σ !! result = None) as Hnone by apply not_elem_of_dom, is_fresh.
  split; [done |]. split.
  - apply map_subseteq_spec. intros l d Hl.
    unfold σ'. rewrite parse_message_keeps; [done |].
    intros ->. fold result in Hl. congruence.
  - apply map_eq. intros l. destruct (decide (l = result)) as [-> | Hne].
    + by rewrite lookup_delete_eq.
    + rewrite lookup_delete_ne by done. by apply parse_message_keeps.
Qed.

Example parse_message_demo :
  let d := [("level", PyStr "job_info"); ("job", PyObj (PyObject "Job" "align" "align" true None));
            ("jobid", PyInt 3)] in
  let '(o, σ) := _parse_message 1 (with_message d) in
  o = Returned (qq "{'level': 'job_info', 'job': 'align', 'jobid': 3}")
  ∧ heap σ !! 1%positive = Some d.
Proof. vm_compute. auto. Qed.

(** C4.  The code fails the claim for an error object with an empty
    message: the value tested by [or] is the error object, which is true
    whatever its message, so [Exception] is not substituted and the text
    stored under [exception] is the class name, a colon and a space. *)
Theorem parse_message_empty_exception :
  let e := PyExc "ValueError" [PyStr ""] in
  py_str e = ""
  ∧ py_bool e = true
  ∧ (_parse_message 1 (with_message [("exception", e)])).1
    = Returned (qq "{'exception': 'ValueError: '}").
Proof. vm_compute. auto. Qed.

(** For an instance of an exception class the text is the class name, a
    colon, a space and [str] of the instance. *)
Lemma normalized_exception (cls : string) (args : list pyval) :
  normalized "exception" (PyExc cls args)
  = PyStr (cls +:+ ": " +:+ py_str (PyExc cls args)).
Proof. reflexivity. Qed.

(** ** Decoding what [json.dumps] wrote *)

(** *** Strings *)

Lemma scan_string_escape_char (c : ascii) (tail : string) :
  scan_string (json_escape_char c +:+ tail)
  = '(str, rest) ← scan_string tail; Some (String c str, rest).
Proof.
  destruct c as [[] [] [] [] [] [] [] []]; reflexivity.
Qed.

Lemma scan_string_escape (s rest : string) :
  scan_string (json_escape s +:+ String dquote rest) = Some (s, rest).
Proof.
  induction s as [|c s IH]; [reflexivity |].
  simpl json_escape. rewrite append_assoc, scan_string_escape_char, IH.
  reflexivity.
Qed.

Lemma json_string_append (s rest : string) :
  json_string s +:+ rest = String dquote (json_escape s +:+ String dquote rest).
Proof.
  unfold json_string. by rewrite append_cons, append_assoc.
Qed.

(** *** Integers *)

Lemma delimited_no_digit (rest : string) :
  delimited rest = true → scan_digits rest = (Nil, rest).
Proof.
  destruct rest as [|c rest]; [done |]. simpl.
  destruct c as [[] [] [] [] [] [] [] []]; done.
Qed.

Lemma delimited_no_float (rest : string) :
  delimited rest = true → starts_float rest = false.
Proof.
  destruct rest as [|c rest]; [done |]. simpl.
  destruct c as [[] [] [] [] [] [] [] []]; done.
Qed.

Lemma delimited_skip_ws (rest : string) :
  delimited rest = true → skip_ws rest = rest.
Proof.
  destruct rest as [|c rest]; [done |]. simpl.
  destruct c as [[] [] [] [] [] [] [] []]; done.
Qed.

Lemma scan_digits_uint (u : uint) (rest : string) :
  delimited rest = true → scan_digits (uint_digits u +:+ rest) = (u, rest).
Proof.
  intros Hrest. induction u; simpl uint_digits;
    [by apply delimited_no_digit | rewrite append_cons; simpl; by rewrite IHu ..].
Qed.

Lemma to_uint_no_leading_zero (p : positive) (u : uint) : Pos.to_uint p ≠ D0 u.
Proof.
  pose proof (DecimalPos.Unsigned.to_of (Pos.to_uint p)) as H.
  rewrite DecimalPos.Unsigned.of_to in H. simpl in H.
  assert (nzhead (Pos.to_uint p) ≠ Nil) as Hnil.
  { intros Hnil%DecimalFacts.unorm_0.
    apply (DecimalPos.Unsigned.to_uint_nonzero p). congruence. }
  rewrite (DecimalFacts.unorm_nzhead _ Hnil) in H. rewrite H.
  apply DecimalFacts.nzhead_nonzero.
Qed.

(** The digits of a positive number, read back. *)
Lemma scan_number_digits (p : positive) (sign : Z) (rest : string) :
  delimited rest = true →
  (let '(u, rest') := scan_digits (uint_digits (Pos.to_uint p) +:+ rest) in
   match u with
   | Nil => None
   | D0 (D0 _ | D1 _ | D2 _ | D3 _ | D4 _ | D5 _ | D6 _ | D7 _ | D8 _ | D9 _) => None
   | _ => if starts_float rest' then None else Some (sign * Z.of_uint u, rest')
   end) = Some (sign * Z.pos p, rest).
Proof.
  intros Hrest. rewrite scan_digits_uint by done.
  rewrite (delimited_no_float rest Hrest).
  assert (Z.of_uint (Pos.to_uint p) = Z.pos p) as Hp.
  { unfold Z.of_uint. by rewrite DecimalPos.Unsigned.of_to. }
  pose proof (to_uint_no_leading_zero p) as Hz.
  pose proof (DecimalPos.Unsigned.to_uint_nonnil p) as Hnil.
  destruct (Pos.to_uint p) as [|u|u|u|u|u|u|u|u|u|u];
    try by rewrite Hp.
  - done.
  - by destruct (Hz u).
Qed.

Lemma uint_digits_head (p : positive) :
  ∃ c s, uint_digits (Pos.to_uint p) = String c s
         ∧ Ascii.eqb c "-" = false ∧ digit_of c ≠ None.
Proof.
  pose proof (DecimalPos.Unsigned.to_uint_nonnil p) as Hnil.
  destruct (Pos.to_uint p); [done | simpl; eauto 10 ..].
Qed.

Lemma scan_number_int (z : Z) (rest : string) :
  delimited rest = true → scan_number (int_str z +:+ rest) = Some (z, rest).
Proof.
  intros Hrest. destruct z as [|p|p]; simpl int_str.
  - unfold scan_number. rewrite append_cons, append_empty_l. simpl.
    rewrite (delimited_no_digit rest Hrest), (delimited_no_float rest Hrest).
    reflexivity.
  - unfold scan_number.
    destruct (uint_digits_head p) as (c & s & Hs & Hc & _).
    rewrite Hs, append_cons, Hc, <- append_cons, <- Hs.
    rewrite (scan_number_digits p 1 rest Hrest). reflexivity.
  - unfold scan_number. rewrite append_cons. simpl.
    rewrite (scan_number_digits p (-1) rest Hrest). reflexivity.
Qed.

(** *** Values *)

Lemma jsonify_tuple_free (v : pyval) : tuple_free v = true → jsonify v = v.
Proof.
  induction v as [| | | |l IH|l IH|d IH|cls args IH|o] using pyval_ind;
    simpl; try done.
  - intros Hl. f_equal. induction l as [|x l IHl]; [done |].
    simpl in Hl. apply andb_true_iff in Hl as [Hx Hl].
    apply Forall_cons in IH as [IHx IH]. simpl. by rewrite IHx, IHl.
  - intros Hd. f_equal. induction d as [|[k x] d IHd]; [done |].
    simpl in Hd. apply andb_true_iff in Hd as [Hx Hd].
    apply Forall_cons in IH as [IHx IH]. simpl in *. by rewrite IHx, IHd.
Qed.

Lemma digit_starts_value (c : ascii) :
  digit_of c ≠ None → is_ws c = false ∧ Ascii.eqb c "]" = false.
Proof. destruct c as [[] [] [] [] [] [] [] []]; done. Qed.

Lemma json_dumps_starts_value (v : pyval) (t : string) :
  json_dumps v = Some t → starts_value t.
Proof.
  destruct v as [|[]|[|p|p]|s|l|l|d|cls args|o]; simpl;
    intros Ht; simplify_option_eq; try by eexists _, _.
  destruct (uint_digits_head p) as (c & s & -> & _ & Hc).
  exists c, s. split; [done |]. by apply digit_starts_value.
Qed.

Lemma starts_value_skip_ws (t rest : string) :
  starts_value t → skip_ws (t +:+ rest) = t +:+ rest.
Proof.
  intros (c & t' & -> & Hws & _). rewrite append_cons. simpl. by rewrite Hws.
Qed.

Lemma parse_value_number (n : nat) (c : ascii) (s : string) :
  digit_of c ≠ None ∨ c = "-"%char →
  parse_value (S n) (String c s)
  = '(z, rest) ← scan_number (String c s); Some (PyInt z, rest).
Proof.
  intros H.
  destruct c as [[] [] [] [] [] [] [] []];
    first [ reflexivity | exfalso; destruct H as [H | H]; [by apply H | done] ].
Qed.

Lemma parse_value_int (n : nat) (z : Z) (rest : string) :
  delimited rest = true →
  parse_value (S n) (int_str z +:+ rest) = Some (PyInt z, rest).
Proof.
  intros Hrest.
  assert (∃ c s, int_str z +:+ rest = String c s
                 ∧ (digit_of c ≠ None ∨ c = "-"%char)) as (c & s & Hs & Hc).
  { destruct z as [|p|p]; simpl int_str.
    - eexists _, _. split; [apply append_cons | by left].
    - destruct (uint_digits_head p) as (c & s & -> & _ & Hc).
      eexists _, _. split; [apply append_cons | by left].
    - eexists _, _. split; [apply append_cons | by right]. }
  rewrite Hs, parse_value_number by done. rewrite <- Hs.
  by rewrite scan_number_int.
Qed.

Lemma parse_value_string (n : nat) (s : string) :
  parse_value (S n) (String dquote s)
  = '(str, rest) ← scan_string s; Some (PyStr str, rest).
Proof. reflexivity. Qed.

Lemma parse_value_list (n : nat) (s : string) :
  parse_value (S n) (String "[" s)
  = match skip_ws s with
    | "" => None
    | String c' s'' =>
        if Ascii.eqb c' "]" then Some (PyList [], s'')
        else '(items, rest) ← parse_elements n (String c' s'');
             Some (PyList items, rest)
    end.
Proof. reflexivity. Qed.

Lemma parse_value_dict (n : nat) (s : string) :
  parse_value (S n) (String "{" s)
  = match skip_ws s with
    | "" => None
    | String c' s'' =>
        if Ascii.eqb c' "}" then Some (PyDict [], s'')
        else '(pairs, rest) ← parse_members n (String c' s'');
             Some (PyDict (dict_of_pairs pairs), rest)
    end.
Proof. reflexivity. Qed.

Lemma join_cons_cons (sep t t' : string) (ts : list string) :
  join sep (t :: t' :: ts) = t +:+ sep +:+ join sep (t' :: ts).
Proof. reflexivity. Qed.

Lemma join_singleton (sep t : string) : join sep [t] = t.
Proof. reflexivity. Qed.

Lemma join_starts_value (sep t : string) (ts : list string) :
  starts_value t → starts_value (join sep (t :: ts)).
Proof.
  intros (c & t' & -> & ? & ?). destruct ts as [|t'' ts].
  - by exists c, t'.
  - rewrite join_cons_cons, append_cons. by eexists _, _.
Qed.

Lemma parse_elements_dumped (l : list pyval) :
  Forall decodes l →
  ∀ texts n rest,
    mapM json_dumps l = Some texts →
    forallb well_formed l = true →
    l ≠ [] →
    (parts_fuel (map size l) ≤ n)%nat →
    parse_elements n (join ", " texts +:+ String "]" rest)
    = Some (map jsonify l, rest).
Proof.
  induction 1 as [|v l Hv Hl IH]; intros texts n rest Htexts Hwf Hne Hn;
    [done |].
  simpl in Htexts, Hwf, Hn. apply andb_true_iff in Hwf as [Hwfv Hwfl].
  destruct (json_dumps v) as [t|] eqn:Ht; [| done].
  destruct (mapM json_dumps l) as [texts'|] eqn:Hts; [| done].
  simpl in Htexts. injection Htexts as <-.
  destruct n as [|n]; [lia |]. simpl parse_elements.
  destruct l as [|v' l].
  - simpl in Hts. injection Hts as <-. rewrite join_singleton.
    rewrite (Hv t n (String "]" rest) Ht Hwfv) by (done || lia).
    reflexivity.
  - simpl in Hts.
    destruct (json_dumps v') as [t'|] eqn:Ht'; [| done].
    destruct (mapM json_dumps l) as [texts''|] eqn:Hts'; [| done].
    simpl in Hts. injection Hts as <-.
    rewrite join_cons_cons, !append_assoc.
    rewrite (Hv t n _ Ht Hwfv) by (done || lia).
    simpl. rewrite append_empty_l, starts_value_skip_ws
      by (by eapply join_starts_value, json_dumps_starts_value).
    rewrite (IH (t' :: texts'') n rest); [done.. | simpl in *; lia].
Qed.

Lemma parse_members_dumped (d : pydict) :
  Forall (λ kv, decodes kv.2) d →
  ∀ texts n rest,
    mapM (λ kv, t ← json_dumps kv.2; Some (json_string kv.1 +:+ ": " +:+ t)) d
      = Some texts →
    forallb (λ kv, well_formed kv.2) d = true →
    d ≠ [] →
    (parts_fuel (map (λ kv, size kv.2) d) ≤ n)%nat →
    parse_members n (join ", " texts +:+ String "}" rest)
    = Some (map (λ kv, (kv.1, jsonify kv.2)) d, rest).
Proof.
  induction 1 as [|[k v] d Hv Hd IH]; intros texts n rest Htexts Hwf Hne Hn;
    [done |].
  simpl in Htexts, Hwf, Hn, Hv. apply andb_true_iff in Hwf as [Hwfv Hwfd].
  destruct (json_dumps v) as [t|] eqn:Ht; [| done].
  simpl in Htexts.
  destruct (mapM _ d) as [texts'|] eqn:Hts; [| done].
  simpl in Htexts. injection Htexts as <-.
  destruct n as [|n]; [lia |].
  destruct d as [|[k' v'] d].
  - simpl in Hts. injection Hts as <-. rewrite join_singleton.
    rewrite !append_assoc, json_string_append. simpl parse_members.
    rewrite scan_string_escape. simpl.
    rewrite append_empty_l, starts_value_skip_ws
      by (by eapply json_dumps_starts_value).
    rewrite (Hv t n (String "}" rest) Ht Hwfv) by (done || lia).
    reflexivity.
  - simpl in Hts.
    destruct (json_dumps v') as [t'|] eqn:Ht'; [| done].
    simpl in Hts.
    destruct (mapM _ d) as [texts''|] eqn:Hts'; [| done].
    simpl in Hts. injection Hts as <-.
    rewrite join_cons_cons, !append_assoc, json_string_append.
    simpl parse_members. rewrite scan_string_escape. simpl.
    rewrite append_empty_l, starts_value_skip_ws
      by (by eapply json_dumps_starts_value).
    rewrite (Hv t n _ Ht Hwfv) by (done || lia).
    simpl. rewrite append_empty_l.
    rewrite starts_value_skip_ws
      by (apply join_starts_value; eexists _, _;
          split; [apply json_string_append | done]).
    rewrite (IH (_ :: texts'') n rest); [done.. | simpl in *; lia].
Qed.

Lemma dict_merge_distinct (acc l : pydict) :
  NoDup (map fst (acc ++ l)) → dict_merge acc l = acc ++ l.
Proof.
  unfold dict_merge. revert acc. induction l as [|[k v] l IH]; intros acc Hnd.
  - by rewrite app_nil_r.
  - simpl. rewrite dict_set_new.
    + rewrite IH; rewrite <- app_assoc; done.
    + rewrite fmap_app in Hnd. apply NoDup_app in Hnd as (_ & Hd & _).
      intros Hin. apply (Hd k Hin). left.
Qed.

Lemma dict_of_pairs_distinct (l : pydict) :
  NoDup (map fst l) → dict_of_pairs l = l.
Proof. intros H. by apply (dict_merge_distinct [] l). Qed.

Lemma jsonify_keys (d : pydict) :
  map fst (map (λ kv, (kv.1, jsonify kv.2)) d) = map fst d.
Proof. induction d as [|[k v] d IH]; simpl; [done | by rewrite IH]. Qed.

Lemma bracket_append (o c : ascii) (x rest : string) :
  (String o "" +:+ x +:+ String c "") +:+ rest = String o (x +:+ String c rest).
Proof.
  rewrite append_cons, append_empty_l, append_cons, append_assoc.
  by rewrite append_cons, append_empty_l.
Qed.

Lemma decodes_sequence (l : list pyval) (t : string) (n : nat) (rest : string) :
  Forall decodes l →
  (items ← mapM json_dumps l; Some ("[" +:+ join ", " items +:+ "]")) = Some t →
  forallb well_formed l = true →
  (S (parts_fuel (map size l)) ≤ n)%nat →
  parse_value n (t +:+ rest) = Some (PyList (map jsonify l), rest).
Proof.
  intros IH Ht Hwf Hn.
  destruct (mapM json_dumps l) as [texts|] eqn:Hts; [| done].
  simpl in Ht. injection Ht as <-.
  destruct n as [|n]; [lia |].
  rewrite bracket_append, parse_value_list.
  destruct l as [|v l].
  - simpl in Hts. injection Hts as <-. reflexivity.
  - assert (starts_value (join ", " texts)) as Hstart.
    { simpl in Hts.
      destruct (json_dumps v) as [t|] eqn:Ht; [| done].
      destruct (mapM json_dumps l); [| done].
      simpl in Hts. injection Hts as <-.
      by eapply join_starts_value, json_dumps_starts_value. }
    rewrite starts_value_skip_ws by done.
    destruct Hstart as (c & t' & Hjoin & _ & Hc).
    rewrite Hjoin, append_cons, Hc, <- append_cons, <- Hjoin.
    rewrite (parse_elements_dumped (v :: l) IH texts n rest); [done.. | lia].
Qed.

(** Every value decodes from its text. *)
Lemma decodes_all (v : pyval) : decodes v.
Proof.
  induction v as [|b|z|s|l IH|l IH|d IH|cls args IH|o] using pyval_ind;
    intros t n rest Ht Hwf Hn Hrest; simpl in Ht, Hn; try done.
  - injection Ht as <-. destruct n; [lia | reflexivity].
  - destruct n; [lia |]. destruct b; injection Ht as <-; reflexivity.
  - injection Ht as <-. destruct n; [lia |]. by apply parse_value_int.
  - injection Ht as <-. destruct n; [lia |].
    by rewrite json_string_append, parse_value_string, scan_string_escape.
  - by apply decodes_sequence.
  - by apply decodes_sequence.
  - simpl in Hwf. apply andb_true_iff in Hwf as [Hnd%bool_decide_eq_true Hwf].
    destruct (mapM _ d) as [texts|] eqn:Hts; [| done].
    simpl in Ht. injection Ht as <-.
    destruct n as [|n]; [lia |].
    rewrite bracket_append, parse_value_dict.
    destruct d as [|[k v] d].
    + simpl in Hts. injection Hts as <-. reflexivity.
    + assert (∃ t', join ", " texts = String dquote t') as [t' Hjoin].
      { simpl in Hts.
        destruct (json_dumps v) as [t|] eqn:Ht; [| done]. simpl in Hts.
        destruct (mapM _ d) as [texts'|]; [| done].
        simpl in Hts. injection Hts as <-.
        destruct texts' as [|t'' texts'].
        - rewrite join_singleton, json_string_append. by eexists.
        - rewrite join_cons_cons, json_string_append. by eexists. }
      rewrite Hjoin, append_cons. simpl skip_ws. simpl (Ascii.eqb _ _).
      cbv iota. rewrite <- append_cons, <- Hjoin.
      rewrite (parse_members_dumped ((k, v) :: d) IH texts n rest);
        [| done.. | lia].
      simpl. rewrite dict_of_pairs_distinct; [done |].
      change (NoDup (map fst (map (λ kv, (kv.1, jsonify kv.2)) ((k, v) :: d)))).
      by rewrite jsonify_keys.
Qed.

(** *** The whole text *)

Lemma length_append (a b : string) :
  String.length (a +:+ b) = (String.length a + String.length b)%nat.
Proof.
  induction a as [|c a IH]; [done |]. rewrite append_cons. simpl. by rewrite IH.
Qed.

Lemma parts_fuel_join (sizes : list nat) (texts : list string) :
  Forall2 (λ s t, (s ≤ String.length t)%nat) sizes texts →
  (parts_fuel sizes ≤ S (String.length (join ", " texts)))%nat.
Proof.
  induction 1 as [|s t sizes texts Hs Hrest IH]; simpl; [lia |].
  destruct texts as [|t' texts].
  - apply Forall2_nil_inv_r in Hrest as ->. rewrite join_singleton. simpl. lia.
  - rewrite join_cons_cons, !length_append. simpl String.length. lia.
Qed.

Lemma size_le_length (v : pyval) (t : string) :
  json_dumps v = Some t → (size v ≤ String.length t)%nat.
Proof.
  revert t.
  induction v as [|b|z|s|l IH|l IH|d IH|cls args IH|o] using pyval_ind;
    intros t Ht; simpl in Ht; try done.
  - injection Ht as <-. simpl. lia.
  - destruct b; injection Ht as <-; simpl; lia.
  - injection Ht as <-. destruct z as [|p|p]; simpl; [lia | | lia].
    destruct (uint_digits_head p) as (c & s & -> & _). simpl. lia.
  - injection Ht as <-. simpl. lia.
  - destruct (mapM json_dumps l) as [texts|] eqn:Hts; [| done].
    simpl in Ht. injection Ht as <-.
    rewrite !length_append. simpl.
    enough (parts_fuel (map size l) ≤ S (String.length (join ", " texts)))%nat
      by lia.
    apply parts_fuel_join, Forall2_fmap_l.
    apply mapM_Some in Hts. clear -IH Hts.
    induction Hts as [|v t l texts Hv Hl IHl]; [done |].
    apply Forall_cons in IH as [IHv IH]. constructor; auto.
  - destruct (mapM json_dumps l) as [texts|] eqn:Hts; [| done].
    simpl in Ht. injection Ht as <-.
    rewrite !length_append. simpl.
    enough (parts_fuel (map size l) ≤ S (String.length (join ", " texts)))%nat
      by lia.
    apply parts_fuel_join, Forall2_fmap_l.
    apply mapM_Some in Hts. clear -IH Hts.
    induction Hts as [|v t l texts Hv Hl IHl]; [done |].
    apply Forall_cons in IH as [IHv IH]. constructor; auto.
  - destruct (mapM _ d) as [texts|] eqn:Hts; [| done].
    simpl in Ht. injection Ht as <-.
    rewrite !length_append. simpl.
    enough (parts_fuel (map (λ kv, size kv.2) d)
            ≤ S (String.length (join ", " texts)))%nat by lia.
    apply parts_fuel_join, Forall2_fmap_l.
    apply mapM_Some in Hts. clear -IH Hts.
    induction Hts as [|[k v] t d texts Hv Hd IHd]; [done |].
    apply Forall_cons in IH as [IHv IH]. constructor; [| auto].
    simpl in *. destruct (json_dumps v) as [t'|] eqn:Ht'; [| done].
    simpl in Hv. injection Hv as <-. rewrite !length_append.
    specialize (IHv t' eq_refl). lia.
Qed.

(** [json.loads] of what [json.dumps] wrote of a value with distinct keys
    is the value with its tuples turned into lists. *)
Lemma json_loads_dumps (v : pyval) (t : string) :
  json_dumps v = Some t → well_formed v = true →
  json_loads t = Some (jsonify v).
Proof.
  intros Ht Hwf. unfold json_loads.
  pose proof (json_dumps_starts_value v t Ht) as Hstart.
  pose proof (starts_value_skip_ws t "" Hstart) as Hws.
  rewrite append_empty_r in Hws. rewrite Hws.
  pose proof (decodes_all v t (S (String.length t)) "" Ht Hwf) as Hdec.
  rewrite append_empty_r in Hdec. rewrite Hdec; [done | | done].
  apply size_le_length in Ht. lia.
Qed.

Example json_round_trip_demo :
  let v := PyDict [("rule", PyStr "align"); ("input", PyTuple [PyStr "a.fq"; PyInt 2])] in
  (json_dumps v ≫= json_loads)
  = Some (PyDict [("rule", PyStr "align"); ("input", PyList [PyStr "a.fq"; PyInt 2])]).
Proof. vm_compute. reflexivity. Qed.

(** ** The round trip of [_parse_message] *)

(** The values that [json.dumps] accepts are those in which no exception
    and no object occurs. *)
Lemma json_dumps_plain (v : pyval) : is_Some (json_dumps v) ↔ plain v = true.
Proof.
  induction v as [| [] | | |l IH|l IH|d IH|cls args IH|o] using pyval_ind;
    simpl; try (split; [by intros [? ?] | done]);
    try (split; [done | by eexists]).
  - assert (is_Some (mapM json_dumps l) ↔ forallb plain l = true) as Hl.
    { rewrite mapM_is_Some, forallb_forall, Forall_forall.
      rewrite Forall_forall in IH. split.
      + intros H x Hx%list_elem_of_In. by apply IH, H.
      + intros H x Hx. apply IH; [done |]. by apply H, list_elem_of_In. }
    rewrite <- Hl. destruct (mapM json_dumps l); simpl.
    + split; by eexists.
    + split; by intros [? ?].
  - assert (is_Some (mapM json_dumps l) ↔ forallb plain l = true) as Hl.
    { rewrite mapM_is_Some, forallb_forall, Forall_forall.
      rewrite Forall_forall in IH. split.
      + intros H x Hx%list_elem_of_In. by apply IH, H.
      + intros H x Hx. apply IH; [done |]. by apply H, list_elem_of_In. }
    rewrite <- Hl. destruct (mapM json_dumps l); simpl.
    + split; by eexists.
    + split; by intros [? ?].
  - match goal with |- is_Some (?m ≫= _) ↔ _ =>
      assert (is_Some m ↔ forallb (λ kv, plain kv.2) d = true) as Hd end.
    { rewrite mapM_is_Some, forallb_forall, Forall_forall.
      rewrite Forall_forall in IH. split.
      + intros H x Hx%list_elem_of_In. apply IH; [done |].
        destruct (H x Hx) as [t Ht]. simpl in Ht.
        apply bind_Some in Ht as (t' & Ht' & _). by eexists.
      + intros H x Hx. apply list_elem_of_In in Hx as Hx'.
        apply H in Hx'. apply IH in Hx'; [| done]. destruct Hx' as [t Ht].
        simpl. rewrite Ht. by eexists. }
    rewrite <- Hd.
    match goal with |- is_Some (?m ≫= _) ↔ _ => destruct m end; simpl.
    + split; by eexists.
    + split; by intros [? ?].
Qed.

Lemma normalize_keys (d : pydict) : map fst (normalize d) = map fst d.
Proof. induction d as [|[k v] d IH]; simpl; [done | by rewrite IH]. Qed.

Lemma normalized_other (k : string) (v : pyval) :
  k ≠ "job" → k ≠ "exception" → normalized k v = v.
Proof.
  intros H1%String.eqb_neq H2%String.eqb_neq. unfold normalized.
  by rewrite H1, H2.
Qed.

Lemma normalized_serializable (d : pydict) (k : string) (v : pyval) :
  serializable_items d → (k, v) ∈ d →
  is_Some (json_dumps (normalized k v)) ∧ well_formed (normalized k v) = true.
Proof.
  intros Hd Hin. unfold normalized.
  destruct (String.eqb_spec k "job") as [-> | Hjob]; [by eauto |].
  destruct (String.eqb_spec k "exception") as [-> | Hexc]; [by eauto |].
  by apply (Hd k v).
Qed.

Lemma normalize_dumps (d : pydict) :
  serializable_items d → NoDup (map fst d) →
  is_Some (json_dumps (PyDict (normalize d)))
  ∧ well_formed (PyDict (normalize d)) = true.
Proof.
  intros Hd Hnd.
  assert (Forall (λ kv, is_Some (json_dumps kv.2) ∧ well_formed kv.2 = true)
            (normalize d)) as Hall.
  { unfold normalize. apply Forall_fmap, Forall_forall. intros [k v] Hin.
    by apply (normalized_serializable d). }
  split.
  - simpl.
    assert (is_Some (mapM (λ kv : string * pyval,
                             t ← json_dumps kv.2;
                             Some (json_string kv.1 +:+ ": " +:+ t))
                       (normalize d))) as [texts ->]; [| by eexists].
    apply mapM_is_Some. eapply Forall_impl; [exact Hall |].
    intros [k v] [[t Ht] _]. simpl in *. rewrite Ht. by eexists.
  - simpl. apply andb_true_iff. split.
    + apply bool_decide_eq_true. by rewrite normalize_keys.
    + apply forallb_forall. intros kv Hin%list_elem_of_In.
      rewrite Forall_forall in Hall. by destruct (Hall kv Hin).
Qed.

Lemma decoded_message_keys (d : pydict) : map fst (decoded_message d) = map fst d.
Proof. unfold decoded_message. by rewrite jsonify_keys, normalize_keys. Qed.

Lemma decoded_message_get (d : pydict) (k : string) (v : pyval) :
  NoDup (map fst d) → (k, v) ∈ d →
  dict_get (decoded_message d) k = Some (jsonify (normalized k v)).
Proof.
  intros Hnd Hin. apply dict_get_first; [by rewrite decoded_message_keys |].
  unfold decoded_message, normalize.
  apply list_elem_of_fmap. exists (k, normalized k v). split; [done |].
  apply list_elem_of_fmap. by exists (k, v).
Qed.



Example parse_message_round_trip_demo :
  (match (_parse_message 1 (with_message example_message)).1 with
   | Returned s => json_loads s
   | _ => None
   end)
  = Some (PyDict [("level", PyStr "job_error"); ("job", PyStr "align");
                  ("exception", PyStr "ValueError: bad input");
                  ("output", PyList [PyStr "a.bam"]); ("jobid", PyInt 7)]).
Proof. vm_compute. reflexivity. Qed.


(** * Further properties *)

(** ** [check_response], for the callers *)

Lemma set_stderr_same (σ : state) : set_stderr (stderr σ) σ = σ.
Proof. by destruct σ. Qed.

Lemma check_response_exits (r : response) (endpoint : string) (σ : state) :
  fatal (status_code r) →
  check_response r endpoint σ
  = (Exited (-1),
     set_stderr (stderr σ +:+ fatal_diagnostic (status_code r) endpoint) σ).
Proof.
  intros [H | [H | [H | H]]]; unfold check_response, fatal_diagnostic;
    rewrite H; reflexivity.
Qed.

Lemma fatal_diagnostic_not_empty (code : Z) (endpoint : string) :
  fatal_diagnostic code endpoint ≠ "".
Proof.
  unfold fatal_diagnostic. repeat case_match; rewrite ?append_cons; discriminate.
Qed.

Lemma fatal_diagnostic_mentions (code : Z) (endpoint : string) :
  code ≠ 401 → mentions (fatal_diagnostic code endpoint) endpoint.
Proof.
  intros H401. unfold fatal_diagnostic.
  destruct (Z.eqb_spec code 404); [apply mentions_middle |].
  destruct (Z.eqb_spec code 401); [done |].
  destruct (Z.eqb_spec code 500); [apply mentions_end | apply mentions_middle].
Qed.

Lemma check_response_passes (r : response) (endpoint : string) (σ : state) :
  status_code r ≠ 200 → ¬ fatal (status_code r) →
  check_response r endpoint σ
  = (Returned tt,
     set_stderr (stderr σ +:+ "The " +:+ endpoint +:+ " response code "
                   +:+ int_str (status_code r) +:+ " is not recognized.") σ).
Proof.
  intros H200 Hfatal. unfold fatal in Hfatal. unfold check_response.
  rewrite (proj2 (Z.eqb_neq _ 200)) by done.
  rewrite (proj2 (Z.eqb_neq _ 404)) by tauto.
  rewrite (proj2 (Z.eqb_neq _ 401)) by tauto.
  rewrite (proj2 (Z.eqb_neq _ 500)) by tauto.
  rewrite (proj2 (Z.eqb_neq _ 403)) by tauto.
  reflexivity.
Qed.

(** ** [service_info]: the other paths *)

Section ServiceInfoPaths.
Context (E : environment).

Lemma service_info_returns (σ : state) (r : response) (body : pydict) :
  http E (sent σ) (service_info_request (address σ) (_headers σ)) = Some r →
  status_code r = 200 →
  response_json r = Some (PyDict body) →
  dict_get body "status" = Some (PyStr "running") →
  service_info E σ
  = (Returned tt,
     set_sent (sent σ ++ [service_info_request (address σ) (_headers σ)]) σ).
Proof.
  intros Hhttp Hcode Hjson Hstatus.
  unfold service_info, bind, get, requests_request, service_info_request in *.
  simpl. rewrite Hhttp. simpl. rewrite Hcode. simpl.
  unfold json_of. rewrite Hjson. simpl. rewrite Hstatus. reflexivity.
Qed.

Lemma py_eq_str_true (v : pyval) (s : string) :
  py_eq_str v s = true → v = PyStr s.
Proof. destruct v; simpl; try done. by intros ->%String.eqb_eq. Qed.

(** X1.  [service_info] returns exactly when the server answers the
    service-info request with status 200 and a JSON object whose [status]
    is the string [running]; it has then sent this one request and changed
    nothing else, the error stream included. *)
Theorem service_info_returns_iff (σ : state) :
  let info := service_info_request (address σ) (_headers σ) in
  (service_info E σ).1 = Returned tt
  ↔ (∃ r body,
       http E (sent σ) info = Some r ∧ status_code r = 200
       ∧ response_json r = Some (PyDict body)
       ∧ dict_get body "status" = Some (PyStr "running")
       ∧ service_info E σ = (Returned tt, set_sent (sent σ ++ [info]) σ)).
Proof.
  intros info. split.
  - intros Hret.
    destruct (http E (sent σ) info) as [r|] eqn:Hhttp; cycle 1.
    { unfold service_info, bind, get, requests_request in Hret. simpl in Hret.
      fold (service_info_request (address σ) (_headers σ)) in Hret.
      fold info in Hret. by rewrite Hhttp in Hret. }
    destruct (Z.eqb_spec (status_code r) 200) as [Hcode | Hcode]; cycle 1.
    { by rewrite (service_info_unreachable E σ r Hhttp Hcode) in Hret. }
    destruct (response_json r) as [v|] eqn:Hjson; cycle 1.
    { unfold service_info, bind, get, requests_request in Hret. simpl in Hret.
      fold (service_info_request (address σ) (_headers σ)) in Hret.
      fold info in Hret. rewrite Hhttp in Hret. simpl in Hret.
      rewrite Hcode in Hret. simpl in Hret. unfold json_of in Hret.
      by rewrite Hjson in Hret. }
    assert (∃ body, v = PyDict body
                    ∧ py_eq_str (default PyNone (dict_get body "status"))
                        "running" = true) as (body & -> & Hstatus).
    { unfold service_info, bind, get, requests_request in Hret. simpl in Hret.
      fold (service_info_request (address σ) (_headers σ)) in Hret.
      fold info in Hret. rewrite Hhttp in Hret. simpl in Hret.
      rewrite Hcode in Hret. simpl in Hret. unfold json_of in Hret.
      rewrite Hjson in Hret. simpl in Hret.
      destruct v; try done. simpl in Hret. eexists. split; [done |].
      by destruct (py_eq_str _ _). }
    assert (dict_get body "status" = Some (PyStr "running")) as Hget.
    { apply py_eq_str_true in Hstatus.
      destruct (dict_get body "status"); simpl in Hstatus; [by subst | done]. }
    exists r, body. repeat (split; [done |]).
    by apply (service_info_returns σ r body).
  - intros (r & body & _ & _ & _ & _ & ->). done.
Qed.

(** X2.  When the answer has status 200 and a body that [json()] cannot
    decode, [service_info] ends in [JSONDecodeError]; when the body decodes
    to a value that is no JSON object, it ends in [AttributeError].  In both
    cases nothing is written to the error stream and the process does not
    exit. *)
Theorem service_info_bad_body (σ : state) (r : response) :
  http E (sent σ) (service_info_request (address σ) (_headers σ)) = Some r →
  status_code r = 200 →
  (response_json r = None →
   service_info E σ
   = (Raised JSONDecodeError,
      set_sent (sent σ ++ [service_info_request (address σ) (_headers σ)]) σ))
  ∧ (∀ v, response_json r = Some v → is_dict v = false →
     service_info E σ
     = (Raised AttributeError,
        set_sent (sent σ ++ [service_info_request (address σ) (_headers σ)]) σ)).
Proof.
  intros Hhttp Hcode. split.
  - intros Hjson.
    unfold service_info, bind, get, requests_request, service_info_request in *.
    simpl. rewrite Hhttp. simpl. rewrite Hcode. simpl.
    unfold json_of. by rewrite Hjson.
  - intros v Hjson Hv.
    unfold service_info, bind, get, requests_request, service_info_request in *.
    simpl. rewrite Hhttp. simpl. rewrite Hcode. simpl.
    unfold json_of. rewrite Hjson. simpl. by destruct v.
Qed.

Lemma service_info_not_ready (σ : state) (r : response) (body : pydict) :
  http E (sent σ) (service_info_request (address σ) (_headers σ)) = Some r →
  status_code r = 200 →
  response_json r = Some (PyDict body) →
  py_eq_str (default PyNone (dict_get body "status")) "running" = false →
  service_info E σ
  = (Exited (-1),
     set_stderr (stderr σ +:+ "The status of the server " +:+ py_str (address σ)
                   +:+ " is not in 'running' mode " +:+ os_linesep E)
       (set_sent (sent σ ++ [service_info_request (address σ) (_headers σ)]) σ)).
Proof.
  intros Hhttp Hcode Hjson Hstatus.
  unfold service_info, bind, get, requests_request, service_info_request in *.
  simpl. rewrite Hhttp. simpl. rewrite Hcode. simpl.
  unfold json_of. rewrite Hjson. simpl. rewrite Hstatus. reflexivity.
Qed.

Lemma post_init_unfold (σ : state) :
  __post_init__ E σ
  = bind (service_info E) (λ _, create_workflow E) (initialized E σ).
Proof. reflexivity. Qed.

(** X3.  When the server answers the service-info request with status 200
    but does not report the state [running], [__post_init__] ends the
    process through [sys.exit(-1)] after the diagnostic of [service_info];
    the service-info request is the only request it has sent, so
    [create_workflow] has not run. *)
Theorem post_init_not_running (σ : state) (r : response) (body : pydict) :
  let host := settings_host E in
  let info := service_info_request host (_headers (initialized E σ)) in
  http E (sent σ) info = Some r →
  status_code r = 200 →
  response_json r = Some (PyDict body) →
  py_eq_str (default PyNone (dict_get body "status")) "running" = false →
  __post_init__ E σ
  = (Exited (-1),
     set_stderr (stderr σ +:+ "The status of the server " +:+ py_str host
                   +:+ " is not in 'running' mode " +:+ os_linesep E)
       (set_sent (sent σ ++ [info]) (initialized E σ))).
Proof.
  intros host info Hhttp Hcode Hjson Hstatus.
  rewrite post_init_unfold.
  by apply bind_exited, (service_info_not_ready (initialized E σ) r body).
Qed.

(** X4.  When the transport raises on the service-info request,
    [__post_init__] ends in that exception: nothing is written to the error
    stream, the process does not exit through [sys.exit], and
    [create_workflow] has not run. *)
Theorem post_init_transport_error (σ : state) :
  let info :=
    service_info_request (settings_host E) (_headers (initialized E σ)) in
  http E (sent σ) info = None →
  __post_init__ E σ
  = (Raised RequestException, set_sent (sent σ ++ [info]) (initialized E σ)).
Proof.
  intros info Hhttp. rewrite post_init_unfold. apply bind_raised.
  unfold service_info, bind, get, requests_request. simpl.
  fold (service_info_request (settings_host E) (_headers (initialized E σ))).
  fold info. by rewrite Hhttp.
Qed.
End ServiceInfoPaths.

(** ** [create_workflow]: the other paths *)

Section CreateWorkflowPaths.
Context (E : environment).

Lemma create_workflow_transport_error (σ : state) (wd : string) :
  reported_workdir E (metadata σ) = Some wd →
  http E (sent σ) (first_request σ wd) = None →
  create_workflow E σ
  = (Raised RequestException, set_sent (sent σ ++ [first_request σ wd]) σ).
Proof.
  intros Hwd Hhttp. unfold create_workflow.
  rewrite bind_get. erewrite bind_returned; [| by apply workdir_computed].
  cbv zeta. rewrite !bind_get. apply bind_raised.
  unfold requests_request.
  change (Request GET _ _ _ _) with (first_request σ wd).
  by rewrite Hhttp.
Qed.

(** X5.  When the answer to the create-workflow request has a body that
    [json()] cannot decode, [create_workflow] ends in [JSONDecodeError];
    when the body decodes to a value that is no JSON object, it ends in
    [TypeError].  Whatever the status code of the answer, nothing is
    written to the error stream, the process does not exit, and no PUT is
    sent. *)
Theorem create_workflow_bad_body (σ : state) (wd : string) (r : response) :
  reported_workdir E (metadata σ) = Some wd →
  http E (sent σ) (first_request σ wd) = Some r →
  (response_json r = None →
   create_workflow E σ
   = (Raised JSONDecodeError, set_sent (sent σ ++ [first_request σ wd]) σ))
  ∧ (∀ v, response_json r = Some v → is_dict v = false →
     create_workflow E σ
     = (Raised TypeError, set_sent (sent σ ++ [first_request σ wd]) σ)).
Proof.
  intros Hwd Hhttp. split.
  - intros Hjson. rewrite (create_workflow_sends E σ wd r Hwd Hhttp).
    apply bind_raised. unfold json_of. by rewrite Hjson.
  - intros v Hjson Hv. rewrite (create_workflow_sends E σ wd r Hwd Hhttp).
    unfold json_of. rewrite Hjson, bind_ret. apply bind_raised.
    by destruct v.
Qed.

(** X6.  When the answer to the create-workflow request carries an [id]
    but has status 404, 401, 500 or 403, [create_workflow] writes the
    diagnostic of that status for the endpoint [/create_workflow] and ends
    the process through [sys.exit(-1)]: the PUT is not sent and the
    session is not set.  The diagnostic is
    [The wms /create_workflow endpoint was not found] on 404,
    [Authorization is required with a WMS_MONITOR_TOKEN in the environment]
    on 401, [There was a server error when trying to access /create_workflow]
    on 500 and [Permission is denied to /create_workflow.] on 403. *)
Theorem create_workflow_refused
    (σ : state) (wd : string) (r : response) (body : pydict) (id : pyval) :
  reported_workdir E (metadata σ) = Some wd →
  http E (sent σ) (first_request σ wd) = Some r →
  response_json r = Some (PyDict body) →
  dict_get body "id" = Some id →
  fatal (status_code r) →
  ∃ diag,
    create_workflow E σ
    = (Exited (-1),
       set_stderr (stderr σ +:+ diag)
         (set_sent (sent σ ++ [first_request σ wd]) σ))
    ∧ diag = fatal_diagnostic (status_code r) "/create_workflow"
    ∧ (status_code r = 404 →
       diag = "The wms /create_workflow endpoint was not found")
    ∧ (status_code r = 401 →
       diag = "Authorization is required with a WMS_MONITOR_TOKEN in the environment")
    ∧ (status_code r = 500 →
       diag = "There was a server error when trying to access /create_workflow")
    ∧ (status_code r = 403 → diag = "Permission is denied to /create_workflow.").
Proof.
  intros Hwd Hhttp Hjson Hid Hfatal.
  pose proof (check_response_exits r "/create_workflow"
                (set_sent (sent σ ++ [first_request σ wd]) σ) Hfatal) as Hcheck.
  eexists. split; [| split; [reflexivity |]].
  - rewrite (create_workflow_sends E σ wd r Hwd Hhttp).
    unfold json_of. rewrite Hjson, bind_ret.
    unfold py_getitem. rewrite Hid, bind_ret.
    by apply bind_exited.
  - repeat split; intros ->; reflexivity.
Qed.

(** After the first answer has passed [check_response], which has left [s]
    on the error stream: the PUT is sent, and [create_workflow] ends as
    [check_response] does on its answer, setting the session if it returns. *)
Lemma create_workflow_updates
    (σ : state) (wd data s : string) (r r' : response) (body : pydict) (id : pyval) :
  let first := first_request σ wd in
  let second := update_workflow_request (address σ) (_headers σ) id data in
  reported_workdir E (metadata σ) = Some wd →
  json_dumps (args σ) = Some data →
  http E (sent σ) first = Some r →
  response_json r = Some (PyDict body) →
  dict_get body "id" = Some id →
  check_response r "/create_workflow" (set_sent (sent σ ++ [first]) σ)
    = (Returned tt, set_stderr s (set_sent (sent σ ++ [first]) σ)) →
  http E (sent σ ++ [first]) second = Some r' →
  create_workflow E σ
  = bind (check_response r' ("/api/workflow/" +:+ py_str id))
      (λ _, modify (set_server (Some [("url", address σ); ("id", id)])))
      (set_stderr s (set_sent (sent σ ++ [first] ++ [second]) σ)).
Proof.
  intros first second Hwd Hdata Hhttp Hjson Hid Hcheck Hhttp'.
  rewrite (create_workflow_sends E σ wd r Hwd Hhttp).
  unfold json_of. rewrite Hjson, bind_ret.
  unfold py_getitem. rewrite Hid, bind_ret.
  erewrite bind_returned; [| exact Hcheck].
  rewrite bind_get. unfold json_dumps_call. rewrite Hdata, bind_ret.
  erewrite bind_returned; [reflexivity |].
  unfold requests_request. simpl sent. fold first.
  change (update_workflow_request _ _ id data) with second.
  rewrite Hhttp'. unfold set_sent, set_stderr. simpl.
  by rewrite <- app_assoc.
Qed.

(** X7.  A status of the create-workflow answer that [check_response] does
    not recognize (neither 200 nor 404, 401, 500, 403) does not stop
    [create_workflow]: after the diagnostic it sends the PUT, and when that
    is answered with status 200 it returns with the session set to the [id]
    of the unrecognized answer. *)
Theorem create_workflow_unrecognized_continues
    (σ : state) (wd data : string) (r r' : response) (body : pydict) (id : pyval) :
  let first := first_request σ wd in
  let second := update_workflow_request (address σ) (_headers σ) id data in
  reported_workdir E (metadata σ) = Some wd →
  json_dumps (args σ) = Some data →
  http E (sent σ) first = Some r →
  response_json r = Some (PyDict body) →
  dict_get body "id" = Some id →
  status_code r ≠ 200 → ¬ fatal (status_code r) →
  http E (sent σ ++ [first]) second = Some r' →
  status_code r' = 200 →
  create_workflow E σ
  = (Returned tt,
     set_server (Some [("url", address σ); ("id", id)])
       (set_stderr (stderr σ +:+ "The /create_workflow response code "
                      +:+ int_str (status_code r) +:+ " is not recognized.")
          (set_sent (sent σ ++ [first] ++ [second]) σ))).
Proof.
  intros first second Hwd Hdata Hhttp Hjson Hid H200 Hfatal Hhttp' Hcode'.
  rewrite (create_workflow_updates σ wd data _ r r' body id
             Hwd Hdata Hhttp Hjson Hid
             (check_response_passes r "/create_workflow" _ H200 Hfatal) Hhttp').
  erewrite bind_returned; [| by apply check_response_200].
  reflexivity.
Qed.

(** X8.  When the create-workflow answer has status 200 and an [id] but the
    PUT to [/api/workflow/<id>] is answered with status 404, 401, 500 or
    403, [create_workflow] writes the diagnostic of that status for the
    endpoint [/api/workflow/<id>] and ends the process through
    [sys.exit(-1)]; both requests have been sent and the session is not
    set.  The diagnostic is [The wms /api/workflow/<id> endpoint was not
    found] on 404, the text that asks for a [WMS_MONITOR_TOKEN] on 401,
    [There was a server error when trying to access /api/workflow/<id>] on
    500 and [Permission is denied to /api/workflow/<id>.] on 403. *)
Theorem create_workflow_update_refused
    (σ : state) (wd data : string) (r r' : response) (body : pydict) (id : pyval) :
  let first := first_request σ wd in
  let second := update_workflow_request (address σ) (_headers σ) id data in
  reported_workdir E (metadata σ) = Some wd →
  json_dumps (args σ) = Some data →
  http E (sent σ) first = Some r →
  status_code r = 200 →
  response_json r = Some (PyDict body) →
  dict_get body "id" = Some id →
  http E (sent σ ++ [first]) second = Some r' →
  fatal (status_code r') →
  ∃ diag,
    create_workflow E σ
    = (Exited (-1),
       set_stderr (stderr σ +:+ diag)
         (set_sent (sent σ ++ [first] ++ [second]) σ))
    ∧ diag = fatal_diagnostic (status_code r') ("/api/workflow/" +:+ py_str id)
    ∧ (status_code r' = 404 →
       diag = "The wms /api/workflow/" +:+ py_str id +:+ " endpoint was not found")
    ∧ (status_code r' = 401 →
       diag = "Authorization is required with a WMS_MONITOR_TOKEN in the environment")
    ∧ (status_code r' = 500 →
       diag = "There was a server error when trying to access /api/workflow/"
                +:+ py_str id)
    ∧ (status_code r' = 403 →
       diag = "Permission is denied to /api/workflow/" +:+ py_str id +:+ ".").
Proof.
  intros first second Hwd Hdata Hhttp Hcode Hjson Hid Hhttp' Hfatal.
  assert (check_response r "/create_workflow" (set_sent (sent σ ++ [first]) σ)
          = (Returned tt,
             set_stderr (stderr σ) (set_sent (sent σ ++ [first]) σ))) as Hcheck.
  { rewrite check_response_200 by done. by destruct σ. }
  rewrite (create_workflow_updates σ wd data _ r r' body id
             Hwd Hdata Hhttp Hjson Hid Hcheck Hhttp').
  pose proof (check_response_exits r' ("/api/workflow/" +:+ py_str id)
                (set_stderr (stderr σ) (set_sent (sent σ ++ [first] ++ [second]) σ))
                Hfatal) as Hexit.
  eexists. split; [| split; [reflexivity |]].
  - erewrite bind_exited; [| exact Hexit]. reflexivity.
  - unfold fatal_diagnostic.
    repeat split; intros ->; simpl; by rewrite ?append_cons, ?append_empty_l.
Qed.
End CreateWorkflowPaths.

(** ** The working directory sent to the server *)

Section ReportedDirectory.
Context (E : environment).

(** After its first request [create_workflow] only adds to the requests
    sent. *)
Lemma create_workflow_first_sent (σ : state) (wd : string) :
  reported_workdir E (metadata σ) = Some wd →
  ∃ rest, sent (create_workflow E σ).2 = sent σ ++ first_request σ wd :: rest.
Proof.
  intros Hwd.
  destruct (http E (sent σ) (first_request σ wd)) as [r|] eqn:Hhttp; cycle 1.
  { exists []. by rewrite (create_workflow_transport_error E σ wd Hwd Hhttp). }
  rewrite (create_workflow_sends E σ wd r Hwd Hhttp).
  set (σ1 := set_sent (sent σ ++ [first_request σ wd]) σ).
  match goal with |- ∃ rest, sent (?K σ1).2 = _ =>
    assert (routes (_headers σ1) K) as Hroutes end.
  { apply routes_bind.
    { unfold json_of. case_match; [apply routes_ret | apply routes_raise]. }
    intros body.
    apply routes_bind; [apply routes_py_getitem | intros id].
    apply routes_bind; [apply routes_check_response | intros _].
    apply routes_bind_headers.
    apply routes_bind.
    { unfold json_dumps_call. case_match; [apply routes_ret | apply routes_raise]. }
    intros data.
    apply routes_bind; [apply routes_request; by right | intros r'].
    apply routes_bind; [apply routes_check_response | intros _].
    by apply routes_pure. }
  destruct (Hroutes σ1 eq_refl) as (_ & new & Hsent & _).
  exists new. rewrite Hsent. simpl. by rewrite <- app_assoc.
Qed.

(** X9.  The working directory that [create_workflow] sends in the body of
    its first request is the absolute path of [metadata["directory"]] when
    that is a non-empty string, the absolute path of what [os.fspath]
    gives for it when it is a true path-like object, and the current
    directory of the process when the key is missing or its value is false.
    For a true value that [os.fspath] refuses, one that is neither a string
    nor a path-like object (a number, a list, a tuple, a dictionary, an
    exception, an object without [__fspath__]), [create_workflow] ends in
    [TypeError] before any request is sent. *)
Theorem create_workflow_reports_directory (σ : state) :
  (∀ s, dict_get (metadata σ) "directory" = Some (PyStr s) → s ≠ "" →
   ∃ rest, sent (create_workflow E σ).2
           = sent σ ++ first_request σ (os_path_abspath E s) :: rest)
  ∧ (py_bool (default PyNone (dict_get (metadata σ) "directory")) = false →
     ∃ rest, sent (create_workflow E σ).2
             = sent σ ++ first_request σ (os_getcwd E) :: rest)
  ∧ (∀ o p, dict_get (metadata σ) "directory" = Some (PyObj o) →
     obj_truthy o = true → obj_fspath o = Some p →
     ∃ rest, sent (create_workflow E σ).2
             = sent σ ++ first_request σ (os_path_abspath E p) :: rest)
  ∧ (∀ v, dict_get (metadata σ) "directory" = Some v → py_bool v = true →
     os_fspath v = None →
     create_workflow E σ = (Raised TypeError, σ)).
Proof.
  split; [| split; [| split]].
  - intros s Hdir Hs. apply create_workflow_first_sent.
    unfold reported_workdir. rewrite Hdir. simpl.
    apply String.eqb_neq in Hs. by rewrite Hs.
  - intros Hfalse. apply create_workflow_first_sent.
    unfold reported_workdir. by rewrite Hfalse.
  - intros o p Hdir Htrue Hp. apply create_workflow_first_sent.
    unfold reported_workdir. rewrite Hdir. simpl. by rewrite Htrue, Hp.
  - intros v Hdir Htrue Hv. unfold create_workflow.
    rewrite bind_get. apply bind_raised.
    rewrite Hdir. simpl. rewrite Htrue. simpl.
    unfold py_getitem. rewrite Hdir, bind_ret.
    unfold abspath_call. by rewrite Hv.
Qed.

(** X10.  The whole start-up.  When the server answers the service-info
    request with status 200 and the state [running], the create-workflow
    request with status 200 and an [id], and the PUT with status 200,
    [__post_init__] returns: it has sent these three requests in this
    order, has written nothing to the error stream, has taken the token
    from the environment and the address from the settings, and has set the
    session to the address and the [id].  The working directory it has
    reported is the current directory of the process. *)
Theorem post_init_session
    (σ : state) (r0 r r' : response) (status body : pydict) (id : pyval) :
  let σ0 := initialized E σ in
  let info := service_info_request (settings_host E) (_headers σ0) in
  let first :=
    create_workflow_request (settings_host E) (_headers σ0) (PyDict []) PyNone
      (os_getcwd E) in
  let second := update_workflow_request (settings_host E) (_headers σ0) id "{}" in
  http E (sent σ) info = Some r0 →
  status_code r0 = 200 →
  response_json r0 = Some (PyDict status) →
  dict_get status "status" = Some (PyStr "running") →
  http E (sent σ ++ [info]) first = Some r →
  status_code r = 200 →
  response_json r = Some (PyDict body) →
  dict_get body "id" = Some id →
  http E (sent σ ++ [info] ++ [first]) second = Some r' →
  status_code r' = 200 →
  __post_init__ E σ
  = (Returned tt,
     set_server (Some [("url", settings_host E); ("id", id)])
       (set_sent (sent σ ++ [info] ++ [first] ++ [second]) σ0)).
Proof.
  intros σ0 info first second Hh0 Hc0 Hj0 Hs0 Hh Hc Hj Hid Hh' Hc'.
  rewrite post_init_unfold. fold σ0.
  erewrite bind_returned;
    [| by apply (service_info_returns E σ0 r0 status)].
  pose (σ1 := set_sent (sent σ0 ++ [info]) σ0).
  change (create_workflow E σ1 = (Returned tt,
     set_server (Some [("url", settings_host E); ("id", id)])
       (set_sent (sent σ ++ [info] ++ [first] ++ [second]) σ0))).
  assert (check_response r "/create_workflow" (set_sent (sent σ1 ++ [first]) σ1)
          = (Returned tt,
             set_stderr (stderr σ1) (set_sent (sent σ1 ++ [first]) σ1)))
    as Hcheck.
  { rewrite check_response_200 by done. reflexivity. }
  rewrite (create_workflow_updates E σ1 (os_getcwd E) "{}" (stderr σ1) r r' body id);
    try done.
  - erewrite bind_returned; [| by apply check_response_200].
    unfold modify, σ1. simpl. by rewrite <- !app_assoc.
  - unfold σ1. simpl. by rewrite <- app_assoc.
Qed.
End ReportedDirectory.

(** ** [log_handler] *)

Section LogHandler.
Context (E : environment).

(** With a session and a message whose text [json.dumps] gives,
    [log_handler] sends the POST and ends as [check_response] does on its
    answer. *)
Lemma log_handler_sends
    (msg : loc) (σ : state) (srv d : pydict) (u m : string) (id : pyval) :
  let σ1 := set_heap (<[fresh (dom (heap σ)) := normalize d]> (heap σ)) σ in
  let post :=
    update_status_request u (_headers σ) m (time_asctime E (sent σ)) id in
  server σ = Some srv →
  dict_get srv "url" = Some (PyStr u) →
  dict_get srv "id" = Some id →
  heap σ !! msg = Some d →
  NoDup (map fst d) →
  json_dumps (PyDict (normalize d)) = Some m →
  log_handler E msg σ
  = bind (requests_request E post)
      (λ response, check_response response "/update_workflow_status") σ1.
Proof.
  intros σ1 post Hsrv Hurl Hid Hmsg Hnd Hm. unfold log_handler.
  rewrite bind_get, Hsrv, bind_ret.
  unfold py_getitem at 1. rewrite Hurl, bind_ret.
  unfold py_add_str. rewrite bind_ret.
  erewrite bind_returned; cycle 1.
  { rewrite (parse_message_normalizes msg d σ Hmsg Hnd), Hm. reflexivity. }
  fold σ1. rewrite bind_get.
  unfold py_getitem. rewrite Hid, bind_ret. cbv zeta. rewrite bind_get.
  reflexivity.
Qed.



(** X13.  Called before [create_workflow] has set the session,
    [log_handler] ends in [AttributeError] and changes nothing: no request
    is sent and the message is not read. *)
Theorem log_handler_without_session (msg : loc) (σ : state) :
  server σ = None → log_handler E msg σ = (Raised AttributeError, σ).
Proof.
  intros Hsrv. unfold log_handler. rewrite bind_get, Hsrv.
  by apply bind_raised.
Qed.

End LogHandler.

(** ** When [_parse_message] fails *)

Lemma json_dumps_dict_is_Some (d : pydict) :
  is_Some (json_dumps (PyDict d))
  ↔ Forall (λ kv, is_Some (json_dumps kv.2)) d.
Proof.
  simpl. split.
  - intros [t Ht].
    destruct (mapM _ d) as [texts|] eqn:Hts; [| done].
    assert (is_Some (mapM (λ kv : string * pyval,
                             t ← json_dumps kv.2;
                             Some (json_string kv.1 +:+ ": " +:+ t)) d)) as Hsome
      by (rewrite Hts; by eexists).
    apply mapM_is_Some in Hsome. eapply Forall_impl; [exact Hsome |].
    intros [k v] [x Hx]. simpl in *. destruct (json_dumps v); [by eexists | done].
  - intros Hall.
    assert (is_Some (mapM (λ kv : string * pyval,
                             t ← json_dumps kv.2;
                             Some (json_string kv.1 +:+ ": " +:+ t)) d))
      as [texts ->]; [| by eexists].
    apply mapM_is_Some. eapply Forall_impl; [exact Hall |].
    intros [k v] [t Ht]. simpl in *. rewrite Ht. by eexists.
Qed.

(** X15.  On a message with distinct keys that is within the limits of
    the interpreter (no integer has more than 4300 digits, on which [str]
    and [json.dumps] raise [ValueError], and the values are nested at most
    100 deep, far from the [RecursionError] of deep nesting),
    [_parse_message] either returns a text or ends in the [TypeError] of
    [json.dumps], and it ends in [TypeError] exactly when some value other
    than those of [job] and [exception] is not JSON serializable: the
    values of [job] and [exception] do not make it fail. *)
Theorem parse_message_type_error_iff (msg : loc) (d : pydict) (σ : state) :
  heap σ !! msg = Some d →
  NoDup (map fst d) →
  within_limits (PyDict d) = true →
  ((_parse_message msg σ).1 = Raised TypeError
   ↔ ∃ k v, (k, v) ∈ d ∧ k ≠ "job" ∧ k ≠ "exception" ∧ json_dumps v = None)
  ∧ ((∃ s, (_parse_message msg σ).1 = Returned s)
     ∨ (_parse_message msg σ).1 = Raised TypeError).
Proof.
  intros Hmsg Hnd _. rewrite (parse_message_normalizes msg d σ Hmsg Hnd).
  cbn [fst].
  destruct (json_dumps (PyDict (normalize d))) as [s|] eqn:Hs.
  - split; [| by eauto]. split; [done |].
    intros (k & v & Hin & Hjob & Hexc & Hv).
    assert (is_Some (json_dumps (PyDict (normalize d)))) as Hsome
      by (rewrite Hs; by eexists).
    apply json_dumps_dict_is_Some in Hsome. rewrite Forall_forall in Hsome.
    assert ((k, normalized k v) ∈ normalize d) as Hin'.
    { unfold normalize. apply list_elem_of_fmap. by exists (k, v). }
    apply Hsome in Hin'. simpl in Hin'.
    rewrite normalized_other, Hv in Hin' by done. by destruct Hin'.
  - split; [| by right]. split; [| done]. intros _.
    assert (¬ Forall (λ kv, is_Some (json_dumps kv.2)) (normalize d)) as Hnot.
    { intros Hall%json_dumps_dict_is_Some. rewrite Hs in Hall. by destruct Hall. }
    apply not_Forall_Exists in Hnot; [| intros kv; apply _].
    apply Exists_exists in Hnot as ([k v'] & Hin & Hnone). simpl in Hnone.
    unfold normalize in Hin. apply list_elem_of_fmap in Hin as ([k0 v] & Heq & Hin).
    simpl in Heq. injection Heq as -> ->.
    exists k0, v. unfold normalized in Hnone.
    destruct (String.eqb_spec k0 "job") as [-> | Hjob];
      [by destruct Hnone; eexists |].
    destruct (String.eqb_spec k0 "exception") as [-> | Hexc];
      [by destruct Hnone; eexists |].
    repeat (split; [done |]).
    destruct (json_dumps v); [by destruct Hnone; eexists | done].
Qed.

(** ** What the methods leave alone *)

Section Frame.
Context {B : Type} (f : state → B).
Hypothesis Hfree : process_free f.

Lemma frame_ret {A} (a : A) : frame f (ret a).
Proof. done. Qed.

Lemma frame_raise {A} (e : pyexn) : frame f (@raise A e).
Proof. done. Qed.

Lemma frame_exit {A} (c : Z) : frame f (@sys_exit A c).
Proof. done. Qed.

Lemma frame_get {A} (g : state → A) : frame f (get g).
Proof. done. Qed.

Lemma frame_bind {A C} (m : M A) (k : A → M C) :
  frame f m → (∀ a, frame f (k a)) → frame f (bind m k).
Proof.
  intros Hm Hk σ. specialize (Hm σ). unfold bind.
  destruct (m σ) as [[a | e | c] σ']; simpl in *; [| done..].
  by rewrite Hk.
Qed.

Lemma frame_stderr (s : string) : frame f (sys_stderr_write s).
Proof. intros σ. apply Hfree. Qed.

Lemma frame_request (E : environment) (r : request) :
  frame f (requests_request E r).
Proof.
  intros σ. unfold requests_request.
  destruct (http E (sent σ) r); apply Hfree.
Qed.

Lemma frame_heap_read (l : loc) : frame f (heap_read l).
Proof. intros σ. unfold heap_read. by destruct (heap σ !! l). Qed.

Lemma frame_dict_new : frame f dict_new.
Proof. intros σ. apply Hfree. Qed.

Lemma frame_dict_setitem (l : loc) (key : string) (v : pyval) :
  frame f (dict_setitem l key v).
Proof.
  apply frame_bind; [apply frame_heap_read |]. intros d σ. apply Hfree.
Qed.

Lemma frame_py_getitem (v : pyval) (key : string) : frame f (py_getitem v key).
Proof. intros σ. unfold py_getitem. by repeat case_match. Qed.

Lemma frame_check_response (r : response) (endpoint : string) :
  frame f (check_response r endpoint).
Proof.
  unfold check_response.
  repeat first
    [ case_match
    | apply frame_bind; [| intros ?]
    | apply frame_ret | apply frame_exit | apply frame_stderr ].
Qed.

Lemma frame_parse_items (msg result : loc) (items : pydict) :
  frame f (parse_items msg result items).
Proof.
  induction items as [|[key value] items IH]; simpl; [apply frame_ret |].
  apply frame_bind; [| by intros _].
  repeat case_match; try apply frame_dict_setitem.
  apply frame_bind.
  - apply frame_bind; [apply frame_heap_read | intros d; apply frame_py_getitem].
  - intros e. apply frame_dict_setitem.
Qed.

Lemma frame_parse_message (msg : loc) : frame f (_parse_message msg).
Proof.
  unfold _parse_message.
  apply frame_bind; [apply frame_dict_new | intros result].
  apply frame_bind; [apply frame_heap_read | intros items].
  apply frame_bind; [apply frame_parse_items | intros _].
  apply frame_bind; [apply frame_heap_read | intros r].
  unfold json_dumps_call. case_match; [apply frame_ret | apply frame_raise].
Qed.

Lemma frame_service_info (E : environment) : frame f (service_info E).
Proof.
  unfold service_info.
  apply frame_bind; [apply frame_get | intros addr].
  apply frame_bind; [apply frame_get | intros headers].
  apply frame_bind; [apply frame_request | intros r].
  apply frame_bind.
  { case_match; [| apply frame_ret].
    apply frame_bind; [apply frame_stderr | intros _; apply frame_exit]. }
  intros _. apply frame_bind.
  { unfold json_of. case_match; [apply frame_ret | apply frame_raise]. }
  intros body. apply frame_bind.
  { unfold py_get. case_match; first [apply frame_ret | apply frame_raise]. }
  intros status. case_match; [| apply frame_ret].
  apply frame_bind; [apply frame_stderr | intros _; apply frame_exit].
Qed.

Lemma frame_log_handler (E : environment) (msg : loc) :
  frame f (log_handler E msg).
Proof.
  unfold log_handler.
  apply frame_bind; [apply frame_get | intros srv].
  apply frame_bind.
  { case_match; [apply frame_ret | apply frame_raise]. }
  intros srv'.
  apply frame_bind; [apply frame_py_getitem | intros u].
  apply frame_bind.
  { unfold py_add_str. case_match; first [apply frame_ret | apply frame_raise]. }
  intros url.
  apply frame_bind; [apply frame_parse_message | intros m].
  apply frame_bind; [apply frame_get | intros log].
  apply frame_bind; [apply frame_py_getitem | intros id].
  cbv zeta.
  apply frame_bind; [apply frame_get | intros headers].
  apply frame_bind; [apply frame_request | intros r].
  apply frame_check_response.
Qed.

Lemma unless_frame {A} (m : M A) : frame f m → frame_unless_returned f m.
Proof. intros Hm σ _. apply Hm. Qed.

Lemma unless_bind {A C} (m : M A) (k : A → M C) :
  frame f m → (∀ a, frame_unless_returned f (k a)) →
  frame_unless_returned f (bind m k).
Proof.
  intros Hm Hk σ. specialize (Hm σ). unfold bind.
  destruct (m σ) as [[a | e | c] σ']; simpl in *; [| done..].
  intros Hret. by rewrite Hk.
Qed.

Lemma unless_modify (g : state → state) : frame_unless_returned f (modify g).
Proof. intros σ Hret. by destruct (Hret tt). Qed.

(** [create_workflow] up to its last statement leaves [f] alone. *)
Lemma unless_create_workflow (E : environment) :
  frame_unless_returned f (create_workflow E).
Proof.
  unfold create_workflow.
  apply unless_bind; [apply frame_get | intros md].
  apply unless_bind.
  { case_match; [apply frame_ret |].
    apply frame_bind; [apply frame_py_getitem | intros d].
    unfold abspath_call. case_match; first [apply frame_ret | apply frame_raise]. }
  intros workdir. cbv zeta.
  apply unless_bind; [apply frame_get | intros addr].
  apply unless_bind; [apply frame_get | intros headers].
  apply unless_bind; [apply frame_get | intros a].
  apply unless_bind; [apply frame_request | intros r].
  apply unless_bind.
  { unfold json_of. case_match; [apply frame_ret | apply frame_raise]. }
  intros body.
  apply unless_bind; [apply frame_py_getitem | intros id].
  apply unless_bind; [apply frame_check_response | intros _].
  apply unless_bind; [apply frame_get | intros h].
  apply unless_bind.
  { unfold json_dumps_call. case_match; [apply frame_ret | apply frame_raise]. }
  intros data.
  apply unless_bind; [apply frame_request | intros r'].
  apply unless_bind; [apply frame_check_response | intros _].
  apply unless_modify.
Qed.

(** When [f] does not depend on the session either, [create_workflow]
    leaves it alone. *)
Lemma frame_create_workflow (E : environment) :
  (∀ x σ, f (set_server x σ) = f σ) → frame f (create_workflow E).
Proof.
  intros Hserver. unfold create_workflow.
  apply frame_bind; [apply frame_get | intros md].
  apply frame_bind.
  { case_match; [apply frame_ret |].
    apply frame_bind; [apply frame_py_getitem | intros d].
    unfold abspath_call. case_match; first [apply frame_ret | apply frame_raise]. }
  intros workdir. cbv zeta.
  apply frame_bind; [apply frame_get | intros addr].
  apply frame_bind; [apply frame_get | intros headers].
  apply frame_bind; [apply frame_get | intros a].
  apply frame_bind; [apply frame_request | intros r].
  apply frame_bind.
  { unfold json_of. case_match; [apply frame_ret | apply frame_raise]. }
  intros body.
  apply frame_bind; [apply frame_py_getitem | intros id].
  apply frame_bind; [apply frame_check_response | intros _].
  apply frame_bind; [apply frame_get | intros h].
  apply frame_bind.
  { unfold json_dumps_call. case_match; [apply frame_ret | apply frame_raise]. }
  intros data.
  apply frame_bind; [apply frame_request | intros r'].
  apply frame_bind; [apply frame_check_response | intros _].
  intros σ. apply Hserver.
Qed.
End Frame.

Lemma self_of_process_free : process_free self_of.
Proof. by repeat split. Qed.

Lemma config_of_process_free : process_free config_of.
Proof. by repeat split. Qed.

Lemma server_process_free : process_free server.
Proof. by repeat split. Qed.

(** X16.  [service_info], [check_response] and [log_handler] change no
    attribute of [self]: the token, the address, the arguments, the
    metadata and the session are after the call what they were before it,
    however the call ends.  In particular [log_handler] never sets the
    session again. *)
Theorem self_unchanged
    (E : environment) (msg : loc) (r : response) (endpoint : string) (σ : state) :
  self_of (service_info E σ).2 = self_of σ
  ∧ self_of (check_response r endpoint σ).2 = self_of σ
  ∧ self_of (log_handler E msg σ).2 = self_of σ.
Proof.
  split; [| split].
  - apply frame_service_info, self_of_process_free.
  - apply frame_check_response, self_of_process_free.
  - apply frame_log_handler, self_of_process_free.
Qed.

(** X17.  [create_workflow] changes the token, the address, the arguments
    and the metadata in no case, and it sets the session only as its last
    step: when it ends in an exception or in [sys.exit], the session is what
    it was before the call. *)
Theorem create_workflow_session_on_return (E : environment) (σ : state) :
  config_of (create_workflow E σ).2 = config_of σ
  ∧ ((create_workflow E σ).1 ≠ Returned tt →
     server (create_workflow E σ).2 = server σ).
Proof.
  split.
  - by apply frame_create_workflow; [apply config_of_process_free |].
  - intros Hret. apply unless_create_workflow; [apply server_process_free |].
    by intros [].
Qed.

(** ** The further properties on the example server *)

Lemma example_message_distinct : NoDup (map fst example_message).
Proof.
  apply (bool_decide_eq_true_1 (NoDup (map fst example_message))).
  vm_compute. reflexivity.
Qed.

Lemma service_info_returns_iff_witness :
  let σ := initialized example_env_42 fresh_state in
  let info := service_info_request (address σ) (_headers σ) in
  ∃ r body,
    http example_env_42 (sent σ) info = Some r ∧ status_code r = 200
    ∧ response_json r = Some (PyDict body)
    ∧ dict_get body "status" = Some (PyStr "running")
    ∧ service_info example_env_42 σ = (Returned tt, set_sent (sent σ ++ [info]) σ).
Proof.
  intros σ info.
  apply (proj1 (service_info_returns_iff example_env_42 σ)). reflexivity.
Defined.

Lemma service_info_bad_body_witness :
  let σ := initialized example_env_no_body fresh_state in
  service_info example_env_no_body σ
  = (Raised JSONDecodeError,
     set_sent (sent σ ++ [service_info_request (address σ) (_headers σ)]) σ).
Proof.
  intros σ.
  apply (service_info_bad_body example_env_no_body σ (Response 200 None));
    reflexivity.
Defined.

Lemma post_init_not_running_witness :
  let info := service_info_request (PyStr "http://wms:5000") None in
  __post_init__ example_paused fresh_state
  = (Exited (-1),
     set_stderr (stderr fresh_state +:+ "The status of the server "
                   +:+ py_str (PyStr "http://wms:5000")
                   +:+ " is not in 'running' mode " +:+ os_linesep example_paused)
       (set_sent (sent fresh_state ++ [info]) (initialized example_paused fresh_state))).
Proof.
  intros info.
  apply (post_init_not_running example_paused fresh_state
           (ok [("status", PyStr "paused")]) [("status", PyStr "paused")]);
    reflexivity.
Defined.

Lemma post_init_transport_error_witness :
  let info := service_info_request (PyStr "http://wms:5000") None in
  __post_init__ example_offline fresh_state
  = (Raised RequestException,
     set_sent (sent fresh_state ++ [info]) (initialized example_offline fresh_state)).
Proof.
  intros info. apply (post_init_transport_error example_offline fresh_state).
  reflexivity.
Defined.

Lemma create_workflow_bad_body_witness :
  let σ := initialized example_env_created_no_body fresh_state in
  create_workflow example_env_created_no_body σ
  = (Raised JSONDecodeError,
     set_sent (sent σ ++ [first_request σ "/home/user/run"]) σ).
Proof.
  intros σ.
  apply (create_workflow_bad_body example_env_created_no_body σ
           "/home/user/run" (Response 500 None)); reflexivity.
Defined.

Lemma create_workflow_refused_witness :
  let σ := initialized (example_env_created 403) fresh_state in
  create_workflow (example_env_created 403) σ
  = (Exited (-1),
     set_stderr "Permission is denied to /create_workflow."
       (set_sent (sent σ ++ [first_request σ "/home/user/run"]) σ)).
Proof.
  intros σ.
  destruct (create_workflow_refused (example_env_created 403) σ "/home/user/run"
              (Response 403 (Some (PyDict [("id", PyStr "42")])))
              [("id", PyStr "42")] (PyStr "42") eq_refl eq_refl eq_refl eq_refl
              (or_intror (or_intror (or_intror eq_refl))))
    as (diag & Hrun & _ & _ & _ & _ & H403).
  rewrite Hrun, (H403 eq_refl). reflexivity.
Defined.

Lemma create_workflow_unrecognized_continues_witness :
  let σ := initialized (example_env_created 201) fresh_state in
  let first := first_request σ "/home/user/run" in
  let second := update_workflow_request (address σ) (_headers σ) (PyStr "42") "{}" in
  create_workflow (example_env_created 201) σ
  = (Returned tt,
     set_server (Some [("url", address σ); ("id", PyStr "42")])
       (set_stderr (stderr σ +:+ "The /create_workflow response code "
                      +:+ int_str 201 +:+ " is not recognized.")
          (set_sent (sent σ ++ [first] ++ [second]) σ))).
Proof.
  intros σ first second.
  apply (create_workflow_unrecognized_continues (example_env_created 201) σ
           "/home/user/run" "{}"
           (Response 201 (Some (PyDict [("id", PyStr "42")]))) (ok [])
           [("id", PyStr "42")] (PyStr "42")); try reflexivity.
  - simpl. lia.
  - unfold fatal. simpl. lia.
Defined.

Lemma create_workflow_update_refused_witness :
  let σ := initialized (example_env_other 500) fresh_state in
  let first := first_request σ "/home/user/run" in
  let second := update_workflow_request (address σ) (_headers σ) (PyStr "42") "{}" in
  create_workflow (example_env_other 500) σ
  = (Exited (-1),
     set_stderr "There was a server error when trying to access /api/workflow/42"
       (set_sent (sent σ ++ [first] ++ [second]) σ)).
Proof.
  intros σ first second.
  destruct (create_workflow_update_refused (example_env_other 500) σ
              "/home/user/run" "{}" example_created (Response 500 None)
              [("id", PyStr "42")] (PyStr "42")
              eq_refl eq_refl eq_refl eq_refl eq_refl eq_refl eq_refl
              (or_intror (or_intror (or_introl eq_refl))))
    as (diag & Hrun & _ & _ & _ & H500 & _).
  rewrite Hrun, (H500 eq_refl). reflexivity.
Defined.

Lemma create_workflow_reports_directory_witness :
  let σ := set_metadata [("directory", PyStr "/data/run7")]
             (initialized example_env_42 fresh_state) in
  let σ' := set_metadata [("directory", example_path)]
              (initialized example_env_42 fresh_state) in
  let σ'' := set_metadata [("directory", PyInt 7)]
               (initialized example_env_42 fresh_state) in
  (∃ rest, sent (create_workflow example_env_42 σ).2
           = sent σ ++ first_request σ "/data/run7" :: rest)
  ∧ (∃ rest, sent (create_workflow example_env_42 σ').2
             = sent σ' ++ first_request σ' "/data/run7" :: rest)
  ∧ create_workflow example_env_42 σ'' = (Raised TypeError, σ'').
Proof.
  intros σ σ' σ''. split; [| split].
  - apply (proj1 (create_workflow_reports_directory example_env_42 σ) "/data/run7");
      [reflexivity | discriminate].
  - destruct (create_workflow_reports_directory example_env_42 σ')
      as (_ & _ & Hpath & _).
    apply (Hpath (PyObject "PosixPath" "/data/run7" "PosixPath('/data/run7')" true
                    (Some "/data/run7")) "/data/run7"); reflexivity.
  - destruct (create_workflow_reports_directory example_env_42 σ'')
      as (_ & _ & _ & Hrefused).
    apply (Hrefused (PyInt 7)); reflexivity.
Defined.

Lemma post_init_session_witness :
  let E := example_env_42 in
  let σ0 := initialized E fresh_state in
  let info := service_info_request (settings_host E) (_headers σ0) in
  let first :=
    create_workflow_request (settings_host E) (_headers σ0) (PyDict []) PyNone
      (os_getcwd E) in
  let second :=
    update_workflow_request (settings_host E) (_headers σ0) (PyStr "42") "{}" in
  __post_init__ E fresh_state
  = (Returned tt,
     set_server (Some [("url", settings_host E); ("id", PyStr "42")])
       (set_sent (sent fresh_state ++ [info] ++ [first] ++ [second]) σ0)).
Proof.
  intros E σ0 info first second.
  apply (post_init_session E fresh_state example_running example_created (ok [])
           [("status", PyStr "running")] [("id", PyStr "42")] (PyStr "42"));
    reflexivity.
Defined.



Lemma log_handler_without_session_witness :
  log_handler example_env_42 1 (with_message example_message)
  = (Raised AttributeError, with_message example_message).
Proof.
  apply (log_handler_without_session example_env_42 1
           (with_message example_message)).
  reflexivity.
Defined.


Lemma parse_message_type_error_iff_witness :
  ((_parse_message 1 (with_message example_bad_message)).1 = Raised TypeError
   ↔ ∃ k v, (k, v) ∈ example_bad_message ∧ k ≠ "job" ∧ k ≠ "exception"
            ∧ json_dumps v = None)
  ∧ ((∃ s, (_parse_message 1 (with_message example_bad_message)).1 = Returned s)
     ∨ (_parse_message 1 (with_message example_bad_message)).1 = Raised TypeError).
Proof.
  apply (parse_message_type_error_iff 1 example_bad_message
           (with_message example_bad_message)); [reflexivity | | reflexivity].
  apply (bool_decide_eq_true_1 (NoDup (map fst example_bad_message))).
  vm_compute. reflexivity.
Defined.

Lemma create_workflow_session_on_return_witness :
  let σ := initialized example_env_fail fresh_state in
  server (create_workflow example_env_fail σ).2 = server σ.
Proof.
  intros σ.
  apply (proj2 (create_workflow_session_on_return example_env_fail σ)).
  vm_compute. discriminate.
Defined.

(** ** The arguments of the run *)

Section Sends.
Context (P : request → Prop).

Lemma sends_pure {A} (m : M A) : (∀ σ, sent (m σ).2 = sent σ) → sends P m.
Proof. intros Hm σ. exists []. by rewrite Hm, app_nil_r. Qed.

Lemma sends_bind {A C} (m : M A) (k : A → M C) :
  sends P m → (∀ a, sends P (k a)) → sends P (bind m k).
Proof.
  intros Hm Hk σ. destruct (Hm σ) as (new & Hs & Hnew). unfold bind.
  destruct (m σ) as [[a | e | c] σ']; simpl in *; [| by eauto..].
  destruct (Hk a σ') as (new' & Hs' & Hnew').
  exists (new ++ new'). split; [by rewrite Hs', Hs, <- app_assoc |].
  by apply Forall_app.
Qed.

Lemma sends_request (E : environment) (r : request) :
  P r → sends P (requests_request E r).
Proof.
  intros Hr σ. exists [r]. unfold requests_request.
  destruct (http E (sent σ) r); simpl; auto.
Qed.

Lemma sends_bind_ret {A C} (a : A) (k : A → M C) :
  sends P (k a) → sends P (bind (ret a) k).
Proof. intros Hk σ. apply Hk. Qed.
End Sends.

Lemma sends_check_response (P : request → Prop) (r : response) (endpoint : string) :
  sends P (check_response r endpoint).
Proof.
  apply sends_pure. intros σ. unfold check_response.
  repeat case_match; reflexivity.
Qed.

Lemma args_process_free : process_free args.
Proof. by repeat split. Qed.

Section NoArguments.
Context (E : environment).

Lemma service_info_sends_no_arguments : sends carries_no_arguments (service_info E).
Proof.
  unfold service_info.
  apply sends_bind; [by apply sends_pure | intros addr].
  apply sends_bind; [by apply sends_pure | intros headers].
  apply sends_bind.
  { apply sends_request. split; [by left | done]. }
  intros r. apply sends_bind.
  { apply sends_pure. intros σ. by case_match. }
  intros _. apply sends_bind.
  { apply sends_pure. intros σ. unfold json_of. by case_match. }
  intros body. apply sends_bind.
  { apply sends_pure. intros σ. unfold py_get. by case_match. }
  intros status. apply sends_pure. intros σ. by case_match.
Qed.

Lemma create_workflow_sends_no_arguments (σ : state) :
  args σ = PyDict [] →
  ∃ new, sent (create_workflow E σ).2 = sent σ ++ new
         ∧ Forall carries_no_arguments new.
Proof.
  intros Hargs. unfold create_workflow. rewrite bind_get.
  match goal with |- context [bind ?m _ σ] =>
    assert ((∃ wd, m σ = (Returned wd, σ)) ∨ (∃ e, m σ = (Raised e, σ)))
      as [[wd Hwd] | [e Hwd]] end.
  { destruct (negb _); [by left; eexists |].
    unfold py_getitem, bind.
    destruct (dict_get (metadata σ) "directory") as [v|]; [| by right; eexists].
    unfold ret, abspath_call.
    destruct (os_fspath v); first [by left; eexists | by right; eexists]. }
  2: { erewrite bind_raised by exact Hwd. exists []. by rewrite app_nil_r. }
  erewrite bind_returned by exact Hwd. clear Hwd.
  cbv zeta. rewrite !bind_get, Hargs.
  match goal with |- ∃ new, sent (?K σ).2 = _ ∧ _ =>
    enough (sends carries_no_arguments K) as HK by apply HK end.
  apply sends_bind.
  { apply sends_request. split; [by right | done]. }
  intros r. apply sends_bind.
  { apply sends_pure. intros σ'. unfold json_of. by case_match. }
  intros body. apply sends_bind.
  { apply sends_pure. intros σ'. unfold py_getitem. by repeat case_match. }
  intros id.
  apply sends_bind; [apply sends_check_response | intros _].
  apply sends_bind; [by apply sends_pure | intros h].
  change (json_dumps_call (PyDict [])) with (@ret string "{}").
  apply sends_bind_ret.
  apply sends_bind.
  { apply sends_request. split; [by left | done]. }
  intros r'.
  apply sends_bind; [apply sends_check_response | intros _].
  by apply sends_pure.
Qed.

(** X18.  Whatever the settings and the server, no request of
    [__post_init__] carries a named argument of the run: [self.args] is the
    empty dictionary when [create_workflow] runs, so the query parameters
    of the create-workflow request are empty and the body of the PUT to
    [/api/workflow/<id>] is the text of the empty dictionary. *)
Theorem post_init_sends_no_arguments (σ : state) :
  ∃ new, sent (__post_init__ E σ).2 = sent σ ++ new
         ∧ Forall carries_no_arguments new.
Proof.
  rewrite post_init_unfold. unfold bind.
  destruct (service_info_sends_no_arguments (initialized E σ))
    as (new & Hsent & Hnew).
  pose proof (frame_service_info args args_process_free E (initialized E σ))
    as Hargs.
  destruct (service_info E (initialized E σ)) as [[[] | e | c] σ1];
    simpl in *; [| by eauto..].
  destruct (create_workflow_sends_no_arguments σ1 Hargs)
    as (new' & Hsent' & Hnew').
  exists (new ++ new'). split.
  - by rewrite Hsent', Hsent, <- app_assoc.
  - by apply Forall_app.
Qed.
End NoArguments.

(** ** The classification of [check_response], as a whole *)

Lemma fatal_dec (code : Z) : fatal code ∨ ¬ fatal code.
Proof. unfold fatal. lia. Qed.

(** X19.  [check_response] never raises.  It ends the process, with
    [sys.exit(-1)], exactly on the status codes 404, 401, 500 and 403, and
    returns on every other code; in each case all it changes is the error
    stream, to which it appends (nothing, on 200). *)
Theorem check_response_exits_iff (r : response) (endpoint : string) (σ : state) :
  ((check_response r endpoint σ).1 = Exited (-1) ↔ fatal (status_code r))
  ∧ ((check_response r endpoint σ).1 = Returned tt ↔ ¬ fatal (status_code r))
  ∧ ∃ diag, (check_response r endpoint σ).2 = set_stderr (stderr σ +:+ diag) σ.
Proof.
  destruct (fatal_dec (status_code r)) as [Hfatal | Hfatal].
  - rewrite (check_response_exits r endpoint σ Hfatal).
    simpl. split; [done |]. split; [done |]. by eexists.
  - destruct (Z.eq_dec (status_code r) 200) as [H200 | H200].
    + rewrite (check_response_200 r endpoint σ H200). simpl.
      split; [done |]. split; [done |]. exists "".
      rewrite append_empty_r. by destruct σ.
    + rewrite (check_response_passes r endpoint σ H200 Hfatal). simpl.
      split; [done |]. split; [done |]. by eexists.
Qed.
